(** * Graham defensive-investor screener: model and verified properties

    A shallow embedding of [defensive_investor_screener.py]: the quota-limited
    Alpha Vantage client, the field extractor, the seven rule evaluators and
    the screening aggregator, followed by the theorems that settle the
    specification's claims about them.

    Conventions of the embedding.
    - Python numbers are exact rationals ([Q]); IEEE rounding and the special
      values inf/nan are outside the model.  A division whose divisor is zero
      raises [ZeroDivisionError], as in Python.
    - A Python [dict] used as a record is a [gmap string scalar]; a provider
      response is a [Dict]: scalar-valued keys plus the two list-valued keys
      the code reads, ['annualReports'] and ['data'].
    - Code that can raise lives in the [result] monad; [try_except] is the
      [try: ... except Exception as e: ...] block.
    - The interpreter's own services ([float] on a string, fixed-point
      formatting, [datetime.strptime]) are the fields of [PyRuntime]; every
      theorem holds for all of them.
    - The client's side effects (clock, sleeping, requests, printing) act on an
      explicit [World]. *)

From Stdlib Require Import QArith Qabs Lqa Ascii String DecimalString.
From stdpp Require Import gmap strings list sorting.

Local Open Scope string_scope.

(** ** The interpreter services the program relies on *)

Class PyRuntime := {
  (** [float(s)] for a [str] argument; [None] when it raises [ValueError]. *)
  py_float : string -> option Q;
  (** [f"{x:.<d>f}"]. *)
  format_f : nat -> Q -> string;
  (** [datetime.strptime(s, '%Y-%m-%d').year]; [None] when it raises. *)
  strptime_year : string -> option Z;
  (** [str(x)] for a [float]. *)
  str_float : Q -> string;
}.

(** ** Exceptions and the error monad *)

Inductive exn :=
| ValueError (msg : string)
| ZeroDivisionError
| AttributeError (msg : string).

(** [str(e)]; for a division by zero, CPython's text for float operands. *)
Definition str_exn (e : exn) : string :=
  match e with
  | ValueError msg => msg
  | ZeroDivisionError => "float division by zero"
  | AttributeError msg => msg
  end.

Inductive result (A : Type) :=
| Ok (a : A)
| Raise (e : exn).
Arguments Ok {A} a.
Arguments Raise {A} e.

Global Instance result_ret : MRet result := fun A a => Ok a.
Global Instance result_bind : MBind result := fun A B f m =>
  match m with
  | Ok a => f a
  | Raise e => Raise e
  end.

(** [try: body  except Exception as e: handler(e)] *)
Definition try_except {A} (body : result A) (handler : exn -> result A) : result A :=
  match body with
  | Ok a => Ok a
  | Raise e => handler e
  end.

(** A bare [try: body  except: fallback] around an expression. *)
Definition try_or {A} (body : result A) (fallback : A) : A :=
  match body with
  | Ok a => a
  | Raise _ => fallback
  end.

Definition is_ok {A} (r : result A) : bool :=
  match r with Ok _ => true | Raise _ => false end.

(** ** Numbers *)

Definition Qltb (x y : Q) : bool := negb (Qle_bool y x).

(** [x / y] on Python floats *)
Definition py_div (x y : Q) : result Q :=
  if Qeq_bool y 0 then Raise ZeroDivisionError else Ok (x / y)%Q.

(** [sum(l)] *)
Definition py_sum (l : list Q) : Q := fold_left Qplus l 0%Q.

(** [str(n)] for a non-negative [int] *)
Definition str_nat (n : nat) : string := NilEmpty.string_of_uint (Nat.to_uint n).

(** [str(z)] for an [int] *)
Definition str_int (z : Z) : string := NilZero.string_of_int (Z.to_int z).

(** [sep.join(parts)] *)
Definition join (sep : string) (parts : list string) : string := String.concat sep parts.

(** ** Data model *)

(** A provider-supplied scalar: JSON null, a string, or a JSON number. *)
Inductive scalar :=
| SNone
| SStr (s : string)
| SInt (z : Z)
| SFloat (q : Q).

(** [type(v).__name__] *)
Definition type_name (v : scalar) : string :=
  match v with
  | SNone => "NoneType"
  | SStr _ => "str"
  | SInt _ => "int"
  | SFloat _ => "float"
  end.

(** [bool(v)] *)
Definition truthy (v : scalar) : bool :=
  match v with
  | SNone => false
  | SStr s => negb (String.eqb s "")
  | SInt z => negb (z =? 0)%Z
  | SFloat q => negb (Qeq_bool q 0)
  end.

Abbreviation RawRecord := (gmap string scalar).
Abbreviation AnnualSeries := (list (gmap string scalar)).

(** A response of the provider, as [response.json()] returns it. *)
Record Dict := mkDict {
  fields : gmap string scalar;
  annualReports : option (list (gmap string scalar));
  data : option (list (gmap string scalar));
}.

(** [{}] *)
Definition empty_dict : Dict :=
  {| fields := ∅; annualReports := None; data := None |}.

(** [bool(d)] for a dict *)
Definition dict_truthy (d : Dict) : bool :=
  negb (bool_decide (fields d = ∅)) || bool_decide (is_Some (annualReports d))
  || bool_decide (is_Some (data d)).

(** [x or {}] *)
Definition or_empty (x : option Dict) : Dict :=
  match x with
  | Some d => if dict_truthy d then d else empty_dict
  | None => empty_dict
  end.

(** ** Configuration *)

Module Config.
Definition CALLS_PER_MINUTE : Z := 5.
Definition MAX_DAILY_CALLS : Z := 25.
Definition MIN_MARKET_CAP : Q := 10000000000.
Definition MIN_CURRENT_RATIO : Q := 2.0.
Definition MIN_DIVIDEND_YEARS : nat := 20.
Definition MIN_EARNINGS_GROWTH : Q := 1 / 3.
Definition MAX_PE_RATIO : Q := 15.
Definition MAX_PB_RATIO : Q := 1.5.
Definition MIN_EARNINGS_YEARS : nat := 10.
End Config.

Section Screener.
Context {RT : PyRuntime}.

(** ** The world the client acts on *)

(** What [requests.get] does for one call: it raises ([Failure], with the
    exception's text), or returns a response whose [json()] either raises
    ([inl], with the text) or yields a dataset. *)
Inductive Reply :=
| Failure (msg : string)
| Response (status_code : Z) (json : string + Dict).

(** A simulated clock and network.  [network n params] is the time the [n]-th
    request takes and what it produces; [dispatched] logs each request with
    the clock value at which it was sent, [slept] each [time.sleep], [stdout]
    each printed text; all three are newest first. *)
Record World := mkWorld {
  clock : Q;
  network : nat -> gmap string string -> Q * Reply;
  dispatched : list (Q * gmap string string);
  slept : list Q;
  stdout : list string;
}.

(** [time.sleep(seconds)] *)
Definition time_sleep (seconds : Q) (w : World) : World :=
  {| clock := (clock w + seconds)%Q; network := network w; dispatched := dispatched w;
     slept := seconds :: slept w; stdout := stdout w |}.

(** [print(text)] *)
Definition print (text : string) (w : World) : World :=
  {| clock := clock w; network := network w; dispatched := dispatched w;
     slept := slept w; stdout := text :: stdout w |}.

(** [requests.get(BASE_URL, params=params, timeout=30)] *)
Definition requests_get (params : gmap string string) (w : World) : Reply * World :=
  let '(latency, reply) := network w (length (dispatched w)) params in
  (reply,
   {| clock := (clock w + latency)%Q; network := network w;
      dispatched := (clock w, params) :: dispatched w;
      slept := slept w; stdout := stdout w |}).

Definition nl : string := String "010"%char "".

(** ** Alpha Vantage API client *)

Record AlphaVantageClient := mkClient {
  api_key : string;
  calls_per_minute : Z;
  min_delay : Q;
  last_call_time : Q;
  daily_calls : Z;
  max_daily_calls : Z;
}.

(** [AlphaVantageClient.__init__] *)
Definition init (api_key : string) (calls_per_minute : option Z) : AlphaVantageClient :=
  let calls_per_minute :=
    match calls_per_minute with
    | Some n => if (n =? 0)%Z then Config.CALLS_PER_MINUTE else n
    | None => Config.CALLS_PER_MINUTE
    end in
  {| api_key := api_key;
     calls_per_minute := calls_per_minute;
     min_delay := (60 / inject_Z calls_per_minute)%Q;
     last_call_time := 0;
     daily_calls := 0;
     max_daily_calls := Config.MAX_DAILY_CALLS |}.

Definition _rate_limit (self : AlphaVantageClient) (w : World) : AlphaVantageClient * World :=
  let elapsed := (clock w - last_call_time self)%Q in
  let w := if Qltb elapsed (min_delay self)
           then time_sleep (min_delay self - elapsed)%Q w
           else w in
  ({| api_key := api_key self;
      calls_per_minute := calls_per_minute self;
      min_delay := min_delay self;
      last_call_time := clock w;
      daily_calls := (daily_calls self + 1)%Z;
      max_daily_calls := max_daily_calls self |}, w).

(** [str(v)] for a scalar *)
Definition str_scalar (v : scalar) : string :=
  match v with
  | SNone => "None"
  | SStr s => s
  | SInt z => str_int z
  | SFloat q => str_float q
  end.

Definition _make_request (params : gmap string string) (self : AlphaVantageClient) (w : World)
    : option Dict * AlphaVantageClient * World :=
  if (max_daily_calls self <=? daily_calls self)%Z
  then (None, self,
        print (nl +:+ "⚠️  Reached daily API limit (" +:+ str_int (max_daily_calls self)
               +:+ " calls)") w)
  else
    let '(self, w) := _rate_limit self w in
    let params := <["apikey" := api_key self]> params in
    let '(reply, w) := requests_get params w in
    match reply with
    | Failure msg => (None, self, print ("API error: " +:+ String.substring 0 50 msg) w)
    | Response status_code json =>
        if negb (status_code =? 200)%Z
        then (None, self, print ("API error: HTTP " +:+ str_int status_code) w)
        else match json with
             | inl msg => (None, self, print ("API error: " +:+ String.substring 0 50 msg) w)
             | inr data =>
                 match fields data !! "Information" with
                 | Some information =>
                     (None, self,
                      print (nl +:+ "⚠️  API Information: " +:+ str_scalar information) w)
                 | None => (Some data, self, w)
                 end
             end
    end.

Definition request_params (function symbol : string) : gmap string string :=
  <["symbol" := symbol]> (<["function" := function]> ∅).

Definition _get_data (function symbol : string) := _make_request (request_params function symbol).
Definition get_overview (symbol : string) := _get_data "OVERVIEW" symbol.
Definition get_income_statement (symbol : string) := _get_data "INCOME_STATEMENT" symbol.
Definition get_balance_sheet (symbol : string) := _get_data "BALANCE_SHEET" symbol.
Definition get_cash_flow (symbol : string) := _get_data "CASH_FLOW" symbol.
Definition get_dividends (symbol : string) := _make_request (request_params "DIVIDENDS" symbol).

(** ** Helper functions *)

Definition get_field (data : gmap string scalar) (field : string) : result Q :=
  match data !! field with
  | None | Some SNone => Raise (ValueError (field +:+ " N/A"))
  | Some (SStr value) =>
      if bool_decide (value = "" ∨ value = "None" ∨ value = "-")
      then Raise (ValueError (field +:+ " N/A"))
      else match py_float value with
           | Some x => Ok x
           | None => Raise (ValueError (field +:+ " invalid: " +:+ value))
           end
  | Some (SInt z) => Ok (inject_Z z)
  | Some (SFloat q) => Ok q
  end.

(** The handler shared by all seven evaluators. *)
Definition rule_error (e : exn) : result (bool * string) :=
  Ok (false, "error (" +:+ str_exn e +:+ ")").

(** ** Rule 1: market cap > $10B *)

Definition check_rule_1_size (overview : Dict) : result (bool * string) :=
  try_except
    (market_cap ← get_field (fields overview) "MarketCapitalization";
     let passed := Qltb Config.MIN_MARKET_CAP market_cap in
     let msg := "market cap $" +:+ format_f 2 (market_cap / 1000000000)%Q +:+ "B" in
     Ok (passed, if passed then msg else msg +:+ " (< $10B)"))
    rule_error.

(** ** Rule 2: financial condition *)

(** One entry of [interest_coverage_list]: the body of the [for] loop. *)
Definition interest_coverage_entry (report : gmap string scalar) : string :=
  try_or
    (ebit ← get_field report "ebit";
     interest_expense ← get_field report "interestExpense";
     if Qltb 0 interest_expense
     then coverage ← py_div ebit interest_expense; Ok (format_f 2 coverage)
     else Ok "N/A")
    "N/A".

Definition interest_coverage_list (income_statement : Dict) : list string :=
  match annualReports income_statement with
  | Some (report :: reports) => interest_coverage_entry <$> take 7 (report :: reports)
  | _ => []
  end.

Definition interest_coverage_str (income_statement : Dict) : string :=
  match interest_coverage_list income_statement with
  | [] => "Interest coverage: N/A"
  | l => "7-yr interest coverage: [" +:+ join ", " l +:+ "]"
  end.

(** [s.lower()]; only the ASCII letters matter for the comparison with
    ['utilities'], other bytes are kept. *)
Definition lower_ascii (c : ascii) : ascii :=
  let n := nat_of_ascii c in
  if (65 <=? n)%nat && (n <=? 90)%nat then ascii_of_nat (n + 32) else c.

Fixpoint lower (s : string) : string :=
  match s with
  | EmptyString => EmptyString
  | String c s' => String (lower_ascii c) (lower s')
  end.

(** [overview.get('Sector', '').lower()] *)
Definition sector_lower (overview : Dict) : result string :=
  match default (SStr "") (fields overview !! "Sector") with
  | SStr s => Ok (lower s)
  | v => Raise (AttributeError ("'" +:+ type_name v +:+ "' object has no attribute 'lower'"))
  end.

Definition ratio_part (ratio_ok : bool) (current_ratio : Q) : string :=
  if ratio_ok
  then "current ratio " +:+ format_f 2 current_ratio
  else "current ratio " +:+ format_f 2 current_ratio +:+ " (<= 2.0)".

Definition debt_part (debt_ok : bool) (long_term_debt working_capital : Q) : string :=
  if debt_ok
  then "long-term debt $" +:+ format_f 1 (long_term_debt / 1000000)%Q
       +:+ "M, working capital $" +:+ format_f 1 (working_capital / 1000000)%Q +:+ "M"
  else "long-term debt $" +:+ format_f 1 (long_term_debt / 1000000)%Q
       +:+ "M (>= working capital $" +:+ format_f 1 (working_capital / 1000000)%Q +:+ "M)".

Definition check_rule_2_financial_condition
    (balance_sheet income_statement overview : Dict) : result (bool * string) :=
  try_except
    (match annualReports balance_sheet with
     | None | Some [] => Ok (false, "no balance sheet data")
     | Some (latest :: _) =>
         long_term_debt ← get_field latest "longTermDebt";
         short_term_debt ← get_field latest "shortTermDebt";
         let total_debt := (long_term_debt + short_term_debt)%Q in
         total_equity ← get_field latest "totalShareholderEquity";
         debt_to_equity_ratio ←
           (if Qltb 0 total_equity
            then ratio ← py_div total_debt total_equity; Ok (Some ratio)
            else Ok None);
         let interest_coverage_str := interest_coverage_str income_statement in
         sector ← sector_lower overview;
         let is_utility := String.eqb sector "utilities" in
         if is_utility then
           match debt_to_equity_ratio with
           | None =>
               Ok (false, "debt/equity N/A (negative equity), " +:+ interest_coverage_str)
           | Some ratio =>
               let passed := Qltb ratio 2.0 in
               if passed
               then Ok (passed, "debt/equity " +:+ format_f 2 ratio +:+ ", "
                                +:+ interest_coverage_str)
               else Ok (passed, "debt/equity " +:+ format_f 2 ratio +:+ " (>= 2.0), "
                                +:+ interest_coverage_str)
           end
         else
           current_assets ← get_field latest "totalCurrentAssets";
           current_liabilities ← get_field latest "totalCurrentLiabilities";
           current_ratio ← py_div current_assets current_liabilities;
           let working_capital := (current_assets - current_liabilities)%Q in
           let ratio_ok := Qltb Config.MIN_CURRENT_RATIO current_ratio in
           let debt_ok := Qltb long_term_debt working_capital in
           let parts := [ratio_part ratio_ok current_ratio;
                         debt_part debt_ok long_term_debt working_capital;
                         interest_coverage_str] in
           Ok (ratio_ok && debt_ok, join ", " parts)
     end)
    rule_error.

(** ** Rule 3: positive earnings in each of the past 10 years *)

(** [sum(1 for r in reports if get_field(r, 'netIncome') > 0)] *)
Fixpoint count_positive (reports : list (gmap string scalar)) : result nat :=
  match reports with
  | [] => Ok 0%nat
  | r :: reports' =>
      net_income ← get_field r "netIncome";
      n ← count_positive reports';
      Ok (if Qltb 0 net_income then S n else n)
  end.

Definition check_rule_3_earnings_stability (income_statement : Dict) : result (bool * string) :=
  try_except
    (match annualReports income_statement with
     | None | Some [] => Ok (false, "no income statement data")
     | Some all_reports =>
         let reports := take Config.MIN_EARNINGS_YEARS all_reports in
         if (length reports <? Config.MIN_EARNINGS_YEARS)%nat
         then Ok (false, "need " +:+ str_nat Config.MIN_EARNINGS_YEARS
                         +:+ " years of data (only " +:+ str_nat (length reports)
                         +:+ " available)")
         else
           positive_years ← count_positive reports;
           let passed := (positive_years =? Config.MIN_EARNINGS_YEARS)%nat in
           let msg := "positive earnings " +:+ str_nat positive_years +:+ "/"
                      +:+ str_nat Config.MIN_EARNINGS_YEARS +:+ " years" in
           Ok (passed, msg)
     end)
    rule_error.

(** ** Rule 4: uninterrupted dividends for at least 20 years *)

(** The year a dividend record contributes, if any: the body of the loop over
    [dividend_data].  A falsy or absent date is skipped; a date that
    [strptime] rejects (also a non-string one) is skipped by the bare
    [except]. *)
Definition record_year (record : gmap string scalar) : option Z :=
  match record !! "ex_dividend_date" with
  | Some ex_date =>
      if truthy ex_date
      then match ex_date with
           | SStr s => strptime_year s
           | _ => None
           end
      else None
  | None => None
  end.

Definition years_with_dividends (dividend_data : list (gmap string scalar)) : gset Z :=
  fold_left (fun years record =>
               match record_year record with
               | Some year => years ∪ {[year]}
               | None => years
               end) dividend_data ∅.

(** [sorted(years, reverse=True)] *)
Definition sorted_desc (years : gset Z) : list Z :=
  merge_sort Z.ge (elements years).

(** The counting loop: [remaining] is what [enumerate] has yet to yield, [i]
    the index of its head; the third branch is the [break]. *)
Fixpoint consecutive_loop (sorted_years : list Z) (i : nat) (remaining : list Z)
    (consecutive_years : nat) : nat :=
  match remaining with
  | [] => consecutive_years
  | year :: remaining' =>
      if (i =? 0)%nat then consecutive_loop sorted_years (S i) remaining' 1
      else if bool_decide (Some year = (fun prev => prev - 1)%Z <$> sorted_years !! (i - 1)%nat)
      then consecutive_loop sorted_years (S i) remaining' (S consecutive_years)
      else consecutive_years
  end.

Definition count_consecutive (sorted_years : list Z) : nat :=
  consecutive_loop sorted_years 0 sorted_years 0.

Definition check_rule_4_dividend_record (overview dividends : Dict) : result (bool * string) :=
  try_except
    (dividend_yield ← get_field (fields overview) "DividendYield";
     match data dividends with
     | None | Some [] =>
         Ok (false, "dividend yield " +:+ format_f 2 (dividend_yield * 100)%Q
                    +:+ "% (history not available)")
     | Some dividend_data =>
         let years_with_dividends := years_with_dividends dividend_data in
         if bool_decide (years_with_dividends = ∅)
         then Ok (false, "no valid dividend dates found")
         else
           let sorted_years := sorted_desc years_with_dividends in
           let consecutive_years := count_consecutive sorted_years in
           if (Config.MIN_DIVIDEND_YEARS <=? consecutive_years)%nat
           then Ok (true, "dividend yield " +:+ format_f 2 (dividend_yield * 100)%Q
                          +:+ "%, " +:+ str_nat consecutive_years +:+ " consecutive years")
           else Ok (false, "only " +:+ str_nat consecutive_years
                           +:+ " consecutive years (< " +:+ str_nat Config.MIN_DIVIDEND_YEARS
                           +:+ ")")
     end)
    rule_error.

(** ** Rules 5 and 6: earnings per share *)

(** The body of the [try] inside the loop over [zip(income_reports,
    balance_reports)]. *)
Definition eps_of (income_report balance_report : gmap string scalar) : result Q :=
  net_income ← get_field income_report "netIncome";
  shares_outstanding ← get_field balance_report "commonStockSharesOutstanding";
  py_div net_income shares_outstanding.

(** ['annualReports' not in d or len(d['annualReports']) < n] *)
Definition fewer_than (n : nat) (d : Dict) : bool :=
  match annualReports d with
  | None => true
  | Some reports => (length reports <? n)%nat
  end.

(** [len(d.get('annualReports', []))] *)
Definition years_available (d : Dict) : nat := length (default [] (annualReports d)).

(** [d['annualReports'][:n]], once the key is known to be present *)
Definition first_reports (n : nat) (d : Dict) : list (gmap string scalar) :=
  take n (default [] (annualReports d)).

(** [", ".join([f"${eps:.2f}" for eps in l])] *)
Definition eps_str (l : list Q) : string :=
  join ", " ((fun eps => "$" +:+ format_f 2 eps) <$> l).

(** Rule 5's [eps_values]: a failed year leaves [None] in its position. *)
Definition eps_values_5 (income_reports balance_reports : list (gmap string scalar))
    : list (option Q) :=
  (fun p => match eps_of p.1 p.2 with Ok eps => Some eps | Raise _ => None end)
    <$> zip income_reports balance_reports.

(** [[eps_values[i] for i in range(start, start + 3) if eps_values[i] is not None]] *)
Definition eps_window (eps_values : list (option Q)) (start : nat) : list Q :=
  omap (fun i => mjoin (eps_values !! i)) (seq start 3).

(** [sum(l) / len(l)] *)
Definition average (l : list Q) : result Q :=
  py_div (py_sum l) (inject_Z (Z.of_nat (length l))).

Definition check_rule_5_earnings_growth (income_statement balance_sheet : Dict)
    : result (bool * string) :=
  try_except
    (if fewer_than 10 income_statement
     then Ok (false, "need 10 years of data (only "
                     +:+ str_nat (years_available income_statement) +:+ " available)")
     else if fewer_than 10 balance_sheet
     then Ok (false, "need 10 years of balance sheet data (only "
                     +:+ str_nat (years_available balance_sheet) +:+ " available)")
     else
       let income_reports := first_reports 10 income_statement in
       let balance_reports := first_reports 10 balance_sheet in
       let eps_values := eps_values_5 income_reports balance_reports in
       let usable := omap id eps_values in
       if (length usable <? 10)%nat
       then Ok (false, "need 10 years of EPS data (only " +:+ str_nat (length usable)
                       +:+ " available)")
       else
         let ending_eps := eps_window eps_values 0 in
         let beginning_eps := eps_window eps_values 7 in
         if (length ending_eps <? 3)%nat || (length beginning_eps <? 3)%nat
         then Ok (false, "insufficient EPS data for 3-year averages")
         else
           ending_avg ← average ending_eps;
           beginning_avg ← average beginning_eps;
           if Qle_bool beginning_avg 0
           then Ok (false, "starting 3-year average EPS not positive")
           else
             growth ← py_div (ending_avg - beginning_avg)%Q (Qabs beginning_avg);
             let passed := Qltb Config.MIN_EARNINGS_GROWTH growth in
             let beginning_eps_str := eps_str beginning_eps in
             let ending_eps_str := eps_str ending_eps in
             let msg := "EPS growth " +:+ format_f 1 (growth * 100)%Q +:+ "% (3-yr avg $"
                        +:+ format_f 2 beginning_avg +:+ " → $" +:+ format_f 2 ending_avg
                        +:+ "), beginning 3-yr EPS [" +:+ beginning_eps_str
                        +:+ "], ending 3-yr EPS [" +:+ ending_eps_str +:+ "]" in
             if passed
             then Ok (passed, msg)
             else Ok (passed,
                      "EPS growth " +:+ format_f 1 (growth * 100)%Q +:+ "% (3-yr avg $"
                      +:+ format_f 2 beginning_avg +:+ " → $" +:+ format_f 2 ending_avg
                      +:+ ") (<= 33.3%, per-share basis), beginning 3-yr EPS ["
                      +:+ beginning_eps_str +:+ "], ending 3-yr EPS [" +:+ ending_eps_str
                      +:+ "]"))
    rule_error.

(** Rule 6's [eps_values]: a failed year is dropped ([pass]). *)
Definition eps_values_6 (income_reports balance_reports : list (gmap string scalar))
    : list Q :=
  omap (fun p => match eps_of p.1 p.2 with Ok eps => Some eps | Raise _ => None end)
       (zip income_reports balance_reports).

Definition check_rule_6_pe_ratio (overview income_statement balance_sheet : Dict)
    : result (bool * string) :=
  try_except
    (price ← get_field (fields overview) "50DayMovingAverage";
     if fewer_than 3 income_statement
     then Ok (false, "need 3 years of earnings data")
     else if fewer_than 3 balance_sheet
     then Ok (false, "need 3 years of balance sheet data")
     else
       let income_reports := first_reports 3 income_statement in
       let balance_reports := first_reports 3 balance_sheet in
       let eps_values := eps_values_6 income_reports balance_reports in
       if (length eps_values <? 3)%nat
       then Ok (false, "need 3 years of EPS data")
       else
         avg_eps ← average eps_values;
         if Qle_bool avg_eps 0
         then Ok (false, "3-year average EPS not positive")
         else
           price_to_avg_earnings ← py_div price avg_eps;
           let passed := Qltb price_to_avg_earnings Config.MAX_PE_RATIO in
           let eps_str := eps_str eps_values in
           let msg := "price/avg earnings " +:+ format_f 2 price_to_avg_earnings
                      +:+ " (price $" +:+ format_f 2 price +:+ ", 3-yr avg EPS $"
                      +:+ format_f 2 avg_eps +:+ "), 3-yr EPS [" +:+ eps_str +:+ "]" in
           Ok (passed,
               if passed then msg
               else "price/avg earnings " +:+ format_f 2 price_to_avg_earnings
                    +:+ " (>= 15), price $" +:+ format_f 2 price
                    +:+ ", 3-yr EPS [" +:+ eps_str +:+ "]"))
    rule_error.

(** ** Rule 7: P/B < 1.5 *)

Definition check_rule_7_price_to_book (overview : Dict) : result (bool * string) :=
  try_except
    (pb_ratio ← get_field (fields overview) "PriceToBookRatio";
     let passed := Qltb pb_ratio Config.MAX_PB_RATIO in
     let msg := "P/B " +:+ format_f 2 pb_ratio in
     Ok (passed, if passed then msg else msg +:+ " (>= 1.5)"))
    rule_error.

(** ** Stock evaluation *)

(** The [results] dict of [evaluate_stock].  [rule_details] is a dict filled
    in rule order and later iterated, hence kept as an ordered association
    list. *)
Record Results := mkResults {
  ticker : string;
  company_name : scalar;
  current_price : scalar;
  rules_passed : list string;
  rules_failed : list string;
  rule_details : list (string * string);
  total_passed : nat;
  passes_all : bool;
}.

(** [d[k] = v] on an insertion-ordered dict *)
Fixpoint dict_set (d : list (string * string)) (k v : string) : list (string * string) :=
  match d with
  | [] => [(k, v)]
  | (k', v') :: d' => if String.eqb k' k then (k', v) :: d' else (k', v') :: dict_set d' k v
  end.

(** The seven evaluators, in the order of the [rules] list. *)
Definition run_rules (ov : Dict) (income_statement balance_sheet dividends : option Dict)
    : result (list (string * (bool * string))) :=
  r1 ← check_rule_1_size ov;
  r2 ← check_rule_2_financial_condition (or_empty balance_sheet) (or_empty income_statement) ov;
  r3 ← check_rule_3_earnings_stability (or_empty income_statement);
  r4 ← check_rule_4_dividend_record ov (or_empty dividends);
  r5 ← check_rule_5_earnings_growth (or_empty income_statement) (or_empty balance_sheet);
  r6 ← check_rule_6_pe_ratio ov (or_empty income_statement) (or_empty balance_sheet);
  r7 ← check_rule_7_price_to_book ov;
  Ok [("Rule 1 (adequate size)", r1);
      ("Rule 2 (strong financial condition)", r2);
      ("Rule 3 (earnings stability)", r3);
      ("Rule 4 (dividend record)", r4);
      ("Rule 5 (earnings growth)", r5);
      ("Rule 6 (moderate P/E)", r6);
      ("Rule 7 (moderate P/B)", r7)].

(** One iteration of [for rule_name, (passed, detail) in rules]. *)
Definition record_rule (results : Results) (rule : string * (bool * string)) : Results :=
  let '(rule_name, (passed, detail)) := rule in
  {| ticker := ticker results;
     company_name := company_name results;
     current_price := current_price results;
     rules_passed := if passed then rules_passed results ++ [rule_name]
                     else rules_passed results;
     rules_failed := if passed then rules_failed results
                     else rules_failed results ++ [rule_name];
     rule_details := dict_set (rule_details results) rule_name detail;
     total_passed := total_passed results;
     passes_all := passes_all results |}.

(** The [results] dict once the loop and the two final assignments are done. *)
Definition fold_results (symbol : string) (ov : Dict) (rules : list (string * (bool * string)))
    : Results :=
  let results :=
    {| ticker := symbol;
       company_name := default (SStr symbol) (fields ov !! "Name");
       current_price := default (SStr "N/A") (fields ov !! "50DayMovingAverage");
       rules_passed := [];
       rules_failed := [];
       rule_details := [];
       total_passed := 0;
       passes_all := false |} in
  let results := fold_left record_rule rules results in
  let total_passed := length (rules_passed results) in
  {| ticker := ticker results;
     company_name := company_name results;
     current_price := current_price results;
     rules_passed := rules_passed results;
     rules_failed := rules_failed results;
     rule_details := rule_details results;
     total_passed := total_passed;
     passes_all := (total_passed =? 7)%nat |}.

(** The verbose trace of a finished evaluation, through [out]. *)
Definition trace_results (results : Results) (w : World) : World :=
  let status := if passes_all results then "✅ PASS"
                else "⚠️  " +:+ str_nat (total_passed results) +:+ "/7" in
  let w := print (status +:+ " " +:+ str_scalar (company_name results) +:+ nl) w in
  let w := fold_left (fun w '(rule_name, detail) =>
                        let symbol := if bool_decide (rule_name ∈ rules_passed results)
                                      then "✓" else "✗" in
                        print ("  " +:+ symbol +:+ " " +:+ rule_name +:+ ": " +:+ detail +:+ nl) w)
                     (rule_details results) w in
  print nl w.

(** [evaluate_stock]; the output sink [out] is [print]. *)
Definition evaluate_stock (ticker : string) (verbose : bool)
    (client : AlphaVantageClient) (w : World) : option Results * AlphaVantageClient * World :=
  let w := if verbose then print ("Fetching data for " +:+ ticker +:+ "..." +:+ " ") w else w in
  let '(overview, client, w) := get_overview ticker client w in
  match overview with
  | Some ov =>
      if dict_truthy ov && truthy (default SNone (fields ov !! "Symbol"))
      then
        let '(income_statement, client, w) := get_income_statement ticker client w in
        let '(balance_sheet, client, w) := get_balance_sheet ticker client w in
        let '(dividends, client, w) := get_dividends ticker client w in
        match run_rules ov income_statement balance_sheet dividends with
        | Ok rules =>
            let results := fold_results ticker ov rules in
            (Some results, client, if verbose then trace_results results w else w)
        | Raise e =>
            (None, client,
             if verbose then print ("❌ Error: " +:+ String.substring 0 50 (str_exn e) +:+ nl) w
             else w)
        end
      else (None, client, if verbose then print ("❌ No data" +:+ nl) w else w)
  | None => (None, client, if verbose then print ("❌ No data" +:+ nl) w else w)
  end.

End Screener.

(** ** A reference runtime

    An executable [PyRuntime] for running the model on concrete data.  It
    agrees with CPython on plain decimal literals (optional sign, digits,
    optional fraction), rounds half to even when formatting, and reads dates
    of the shape [YYYY-M-D] with ASCII digits; [str_float] prints at most 16
    decimals.  The theorems below do not depend on it. *)

Module Reference.

Definition digit_of (c : ascii) : option Z :=
  let n := nat_of_ascii c in
  if (48 <=? n)%nat && (n <=? 57)%nat then Some (Z.of_nat (n - 48)) else None.

Fixpoint digits_value (s : string) (acc : Z) : option Z :=
  match s with
  | EmptyString => Some acc
  | String c s' =>
      match digit_of c with
      | Some d => digits_value s' (10 * acc + d)%Z
      | None => None
      end
  end.

(** Split at the first occurrence of [sep]. *)
Fixpoint split_at (sep : ascii) (s : string) : string * option string :=
  match s with
  | EmptyString => (EmptyString, None)
  | String c s' =>
      if Ascii.eqb c sep then (EmptyString, Some s')
      else let '(before, after) := split_at sep s' in (String c before, after)
  end.

Definition unsigned_decimal (s : string) : option Q :=
  let '(int_part, frac_part) := split_at "."%char s in
  let frac_part := default EmptyString frac_part in
  if String.eqb int_part "" && String.eqb frac_part "" then None
  else
    match digits_value int_part 0, digits_value frac_part 0 with
    | Some i, Some f =>
        let scale := (10 ^ Z.of_nat (String.length frac_part))%Z in
        Some (Qred (Qmake (i * scale + f) (Z.to_pos scale)))
    | _, _ => None
    end.

Definition decimal_float (s : string) : option Q :=
  match s with
  | String "-"%char s' => Qopp <$> unsigned_decimal s'
  | String "+"%char s' => unsigned_decimal s'
  | _ => unsigned_decimal s
  end.

(** Round a non-negative rational to the nearest integer, ties to even. *)
Definition round_half_even (q : Q) : Z :=
  let n := Qnum q in
  let d := Zpos (Qden q) in
  let fl := (n / d)%Z in
  let r := (n mod d)%Z in
  match (2 * r ?= d)%Z with
  | Lt => fl
  | Gt => (fl + 1)%Z
  | Eq => if Z.even fl then fl else (fl + 1)%Z
  end.

Fixpoint pad_zeros (width : nat) (s : string) : string :=
  match width with
  | O => s
  | S width' => if (String.length s <=? width')%nat
                then pad_zeros width' (String "0"%char s) else s
  end.

Definition fixed (decimals : nat) (q : Q) : string :=
  let scale := (10 ^ Z.of_nat decimals)%Z in
  let r := round_half_even (Qabs q * inject_Z scale)%Q in
  let sign := if Qltb q 0 then "-" else "" in
  let int_part := str_int (r / scale)%Z in
  match decimals with
  | O => sign +:+ int_part
  | _ => sign +:+ int_part +:+ "." +:+ pad_zeros decimals (str_int (r mod scale)%Z)
  end.

Definition is_leap (y : Z) : bool :=
  ((y mod 4 =? 0) && negb (y mod 100 =? 0) || (y mod 400 =? 0))%Z.

Definition days_in_month (y m : Z) : Z :=
  if (m =? 2)%Z then (if is_leap y then 29 else 28)%Z
  else if ((m =? 4) || (m =? 6) || (m =? 9) || (m =? 11))%Z then 30%Z
  else 31%Z.

Definition iso_date_year (s : string) : option Z :=
  let '(ys, rest) := split_at "-"%char s in
  match rest with
  | None => None
  | Some rest =>
      let '(ms, ds) := split_at "-"%char rest in
      match ds with
      | None => None
      | Some ds =>
          let len_ok (t : string) := (1 <=? String.length t)%nat && (String.length t <=? 2)%nat in
          if (String.length ys =? 4)%nat && len_ok ms && len_ok ds then
            match digits_value ys 0, digits_value ms 0, digits_value ds 0 with
            | Some y, Some m, Some d =>
                if ((1 <=? y) && (1 <=? m) && (m <=? 12) && (1 <=? d)
                    && (d <=? days_in_month y m))%Z
                then Some y else None
            | _, _, _ => None
            end
          else None
      end
  end.

(** Drop the trailing zeros of a fixed-point text, keeping one decimal. *)
Fixpoint trim_zeros (s : string) : string :=
  match s with
  | EmptyString => EmptyString
  | String c s' =>
      let t := trim_zeros s' in
      if Ascii.eqb c "0"%char && String.eqb t "" then "" else String c t
  end.

Definition shortest (q : Q) : string :=
  let '(int_part, frac_part) := split_at "."%char (fixed 16 q) in
  let frac_part := trim_zeros (default EmptyString frac_part) in
  int_part +:+ "." +:+ (if String.eqb frac_part "" then "0" else frac_part).

Definition runtime : PyRuntime :=
  {| py_float := decimal_float;
     format_f := fixed;
     strptime_year := iso_date_year;
     str_float := shortest |}.

End Reference.


(** ** Scenarios: sequences of fetches *)

Section Scenarios.
Context {RT : PyRuntime}.

(** The public fetch operations of the client. *)
Inductive Fetch :=
| Overview
| IncomeStatement
| BalanceSheet
| CashFlow
| Dividends.

Definition fetch (op : Fetch) (symbol : string) (self : AlphaVantageClient) (w : World)
    : option Dict * AlphaVantageClient * World :=
  match op with
  | Overview => get_overview symbol self w
  | IncomeStatement => get_income_statement symbol self w
  | BalanceSheet => get_balance_sheet symbol self w
  | CashFlow => get_cash_flow symbol self w
  | Dividends => get_dividends symbol self w
  end.

(** A caller issuing the fetches [ops] one after the other. *)
Fixpoint run_fetches (ops : list (Fetch * string)) (self : AlphaVantageClient) (w : World)
    : AlphaVantageClient * World :=
  match ops with
  | [] => (self, w)
  | (op, symbol) :: ops' =>
      let '(_, self, w) := fetch op symbol self w in
      run_fetches ops' self w
  end.



End Scenarios.

(** ** Vocabulary of the properties *)

Section Vocabulary.
Context {RT : PyRuntime}.

(** A field the extractor can read as a number. *)
Definition usable (record : gmap string scalar) (field : string) : Prop :=
  is_ok (get_field record field) = true.

(** An evaluator returned normally, with a non-empty detail. *)
Definition reports (r : result (bool * string)) : Prop :=
  exists passed detail, r = Ok (passed, detail) /\ detail <> "".

(** An evaluator returned normally with [passed = False] and a non-empty
    detail. *)
Definition fails (r : result (bool * string)) : Prop :=
  exists detail, r = Ok (false, detail) /\ detail <> "".

(** The data each rule requires, and what it means for some of it to be
    missing or malformed.  A failed fetch reaches the evaluators as [{}], in
    which no series is present. *)

Definition rule_1_data_missing (ov : Dict) : Prop :=
  ~ usable (fields ov) "MarketCapitalization".

Definition rule_2_data_missing (bs ov : Dict) : Prop :=
  match annualReports bs with
  | None | Some [] => True
  | Some (latest :: _) =>
      ~ usable latest "longTermDebt" \/ ~ usable latest "shortTermDebt"
      \/ ~ usable latest "totalShareholderEquity"
      \/ is_ok (sector_lower ov) = false
      \/ (sector_lower ov <> Ok "utilities"
          /\ (~ usable latest "totalCurrentAssets"
              \/ ~ usable latest "totalCurrentLiabilities"))
  end.

Definition rule_3_data_missing (inc : Dict) : Prop :=
  fewer_than 10 inc = true
  \/ exists r, r ∈ first_reports 10 inc /\ ~ usable r "netIncome".

Definition rule_4_data_missing (ov dv : Dict) : Prop :=
  ~ usable (fields ov) "DividendYield"
  \/ years_with_dividends (default [] (data dv)) = ∅.

(** Year [i] of the first [n] lacks a usable net income or share count. *)
Definition eps_year_missing (n : nat) (inc bs : Dict) : Prop :=
  exists i r b, (i < n)%nat
    /\ default [] (annualReports inc) !! i = Some r
    /\ default [] (annualReports bs) !! i = Some b
    /\ (~ usable r "netIncome" \/ ~ usable b "commonStockSharesOutstanding").

Definition rule_5_data_missing (inc bs : Dict) : Prop :=
  fewer_than 10 inc = true \/ fewer_than 10 bs = true \/ eps_year_missing 10 inc bs.

Definition rule_6_data_missing (ov inc bs : Dict) : Prop :=
  ~ usable (fields ov) "50DayMovingAverage"
  \/ fewer_than 3 inc = true \/ fewer_than 3 bs = true \/ eps_year_missing 3 inc bs.

Definition rule_7_data_missing (ov : Dict) : Prop :=
  ~ usable (fields ov) "PriceToBookRatio".

(** The names of the seven rules, in the order of [evaluate_stock]'s list. *)
Definition rule_names : list string :=
  ["Rule 1 (adequate size)"; "Rule 2 (strong financial condition)";
   "Rule 3 (earnings stability)"; "Rule 4 (dividend record)";
   "Rule 5 (earnings growth)"; "Rule 6 (moderate P/E)"; "Rule 7 (moderate P/B)"].

(** The number of outcomes whose [passed] is true. *)
Definition count_passed (outcomes : list (bool * string)) : nat :=
  length (filter (fun o => o.1 = true) outcomes).

(** A year whose net income is usable and strictly positive. *)
Definition is_positive_year (r : gmap string scalar) : bool :=
  match get_field r "netIncome" with
  | Ok x => Qltb 0 x
  | Raise _ => false
  end.

(** The number of such years in a series. *)
Definition positive_years (reports : list (gmap string scalar)) : nat :=
  length (filter (fun r => is_positive_year r = true) reports).


(** The dataset [d] with [reports] as its annual reports. *)
Definition with_reports (d : Dict) (reports : list (gmap string scalar)) : Dict :=
  {| fields := fields d; annualReports := Some reports; data := data d |}.


(** The EPS of one (income report, balance report) pair, [None] when the
    [try] around its computation fails. *)
Definition eps_or_none (p : gmap string scalar * gmap string scalar) : option Q :=
  match eps_of p.1 p.2 with Ok eps => Some eps | Raise _ => None end.

End Vocabulary.

(** ** Sample data *)

Module Samples.

(** A provider that answers every request after one second with an empty
    dataset. *)
Definition quiet_network (n : nat) (params : gmap string string) : Q * Reply :=
  (1%Q, Response 200 (inr empty_dict)).

Definition start_world : World :=
  {| clock := 1700000000; network := quiet_network;
     dispatched := []; slept := []; stdout := [] |}.

(** A client whose ceiling of 2 has been reached by two dispatched calls. *)
Definition exhausted_client : AlphaVantageClient :=
  {| api_key := "demo"; calls_per_minute := 5; min_delay := 12;
     last_call_time := 1699999000; daily_calls := 2; max_daily_calls := 2 |}.

Definition three_fetches : list (Fetch * string) :=
  [(Overview, "IBM"); (IncomeStatement, "IBM"); (BalanceSheet, "IBM")].

(** A record whose values are all strings, as the provider sends them. *)
Definition record_of (l : list (string * string)) : gmap string scalar :=
  list_to_map (prod_map id SStr <$> l).

Definition overview_with_yield (dividend_yield : string) : Dict :=
  {| fields := record_of [("Symbol", "IBM");
                          ("Name", "International Business Machines");
                          ("Sector", "TECHNOLOGY");
                          ("MarketCapitalization", "150000000000");
                          ("DividendYield", dividend_yield);
                          ("50DayMovingAverage", "14.00");
                          ("PriceToBookRatio", "1.2")];
     annualReports := None; data := None |}.

Definition overview : Dict := overview_with_yield "0.045".
Definition overview_without_yield : Dict := overview_with_yield "None".

Definition fiscal_years : list string :=
  ["2023"; "2022"; "2021"; "2020"; "2019"; "2018"; "2017"; "2016"; "2015"; "2014"].

Definition income_report (year net_income : string) : gmap string scalar :=
  record_of [("fiscalDateEnding", year +:+ "-12-31"); ("netIncome", net_income);
             ("ebit", "2000"); ("interestExpense", "100")].

Definition income_statement_of (net_incomes : list string) : Dict :=
  {| fields := record_of [("symbol", "IBM")];
     annualReports := Some (zip_with income_report fiscal_years net_incomes);
     data := None |}.

(** Ten profitable years; EPS 1.40, 1.30, 1.50 at the recent end and
    1.00, 1.00, 1.00 at the far end, on 1000 shares. *)
Definition income_statement : Dict :=
  income_statement_of
    ["1400"; "1300"; "1500"; "1200"; "1200"; "1100"; "1100"; "1000"; "1000"; "1000"].

(** The same with a loss in 2019. *)
Definition income_with_loss : Dict :=
  income_statement_of
    ["1400"; "1300"; "1500"; "1200"; "-50"; "1100"; "1100"; "1000"; "1000"; "1000"].

(** The same with no net income reported for 2019. *)
Definition income_with_gap : Dict :=
  income_statement_of
    ["1400"; "1300"; "1500"; "1200"; "None"; "1100"; "1100"; "1000"; "1000"; "1000"].

Definition balance_report (current_liabilities year : string) : gmap string scalar :=
  record_of [("fiscalDateEnding", year +:+ "-12-31");
             ("commonStockSharesOutstanding", "1000");
             ("longTermDebt", "500"); ("shortTermDebt", "100");
             ("totalShareholderEquity", "4000");
             ("totalCurrentAssets", "3000");
             ("totalCurrentLiabilities", current_liabilities)].

Definition balance_sheet_of (current_liabilities : string) : Dict :=
  {| fields := record_of [("symbol", "IBM")];
     annualReports := Some (balance_report current_liabilities <$> fiscal_years);
     data := None |}.

Definition balance_sheet : Dict := balance_sheet_of "1000".

Definition dividend_on (year : Z) : gmap string scalar :=
  record_of [("ex_dividend_date", str_int year +:+ "-05-09"); ("amount", "1.66")].

Definition dividends_in (years : list Z) : Dict :=
  {| fields := record_of [("symbol", "IBM")];
     annualReports := None;
     data := Some (dividend_on <$> years) |}.

(** One dividend in each of the years 2023 down to 2004. *)
Definition twenty_years : Dict := dividends_in (reverse (seqZ 2004 20)).

(** Dividends in 2023, 2022, 2021 and 2019. *)
Definition interrupted : Dict := dividends_in [2023; 2022; 2021; 2019]%Z.

(** A provider that serves the datasets above. *)
Definition market (n : nat) (params : gmap string string) : Q * Reply :=
  let function := default "" (params !! "function") in
  (1%Q,
   Response 200
     (inr (if String.eqb function "OVERVIEW" then overview
           else if String.eqb function "INCOME_STATEMENT" then income_statement
           else if String.eqb function "BALANCE_SHEET" then balance_sheet
           else if String.eqb function "DIVIDENDS" then twenty_years
           else empty_dict))).

Definition market_world : World :=
  {| clock := 1700000000; network := market;
     dispatched := []; slept := []; stdout := [] |}.

End Samples.

(** ** Command line entry point: the API key *)

(** [get_api_key]: [config] is [config.ALPHA_VANTAGE_API_KEY] when the import
    succeeds, [environ] is [os.environ]. *)
Definition get_api_key (config : option string) (environ : gmap string string) : string :=
  match config with
  | Some key => key
  | None => default "" (environ !! "ALPHA_VANTAGE_API_KEY")
  end.

(** [validate_api_key], as the truth value of what it returns. *)
Definition validate_api_key (api_key : string) : bool :=
  negb (String.eqb api_key "") && negb (String.eqb api_key "your_api_key_here").

(** The key the entry point hands to the client:
    [args.api_key or get_api_key()], checked by [validate_api_key]; [None]
    when the program prints the error and exits with status 1. *)
Definition main_api_key (arg : option string) (config : option string)
    (environ : gmap string string) : option string :=
  let api_key :=
    match arg with
    | Some key => if String.eqb key "" then get_api_key config environ else key
    | None => get_api_key config environ
    end in
  if validate_api_key api_key then Some api_key else None.

(** ** Vocabulary of the further properties *)

Section MoreVocabulary.
Context {RT : PyRuntime}.

(** The [function] parameter each fetch operation sends. *)
Definition function_name (op : Fetch) : string :=
  match op with
  | Overview => "OVERVIEW"
  | IncomeStatement => "INCOME_STATEMENT"
  | BalanceSheet => "BALANCE_SHEET"
  | CashFlow => "CASH_FLOW"
  | Dividends => "DIVIDENDS"
  end.

(** The overview fetch produced a dataset that names a company. *)
Definition resolved (overview : option Dict) : Prop :=
  exists ov, overview = Some ov /\ truthy (default SNone (fields ov !! "Symbol")) = true.

(** Two worlds that differ at most in what has been printed. *)
Definition same_but_stdout (w w' : World) : Prop :=
  clock w = clock w' /\ network w = network w'
  /\ dispatched w = dispatched w' /\ slept w = slept w'.

(** The dataset [d] with [records] as its ['data'] list. *)
Definition with_data (d : Dict) (records : list (gmap string scalar)) : Dict :=
  {| fields := fields d; annualReports := annualReports d; data := Some records |}.

End MoreVocabulary.

(** ** More sample data *)

Module MoreSamples.

(** A client with one call left of its daily ceiling. *)
Definition last_call_client : AlphaVantageClient :=
  {| api_key := "demo"; calls_per_minute := 5; min_delay := 12;
     last_call_time := 1699999000; daily_calls := 24; max_daily_calls := 25 |}.

End MoreSamples.

(** ** Proof automation *)

Ltac unfold_bind := unfold mbind, result_bind in *.

(** Case analysis on the scrutinee of some [match] of the goal. *)
Ltac case_step :=
  match goal with
  | |- context [match ?x with _ => _ end] => destruct x eqn:?
  end.

Ltac ok_inv :=
  repeat match goal with
         | H : Ok _ = Ok _ |- _ => injection H as <- <-
         | H : Raise _ = Ok _ |- _ => discriminate H
         end.

(** * Properties *)

Example decimal_float_examples :
  Reference.decimal_float "1.40" = Some (7 # 5)%Q
  /\ Reference.decimal_float "-12" = Some (-12 # 1)%Q
  /\ Reference.decimal_float "None" = None
  /\ Reference.decimal_float "12abc" = None.
Proof. vm_compute. auto. Qed.

Example fixed_examples :
  Reference.fixed 2 (14 # 1)%Q = "14.00"
  /\ Reference.fixed 1 (40 # 1)%Q = "40.0"
  /\ Reference.fixed 2 (-1 # 3)%Q = "-0.33"
  /\ Reference.fixed 2 (7 # 1000)%Q = "0.01".
Proof. vm_compute. auto. Qed.

Example iso_date_year_examples :
  Reference.iso_date_year "2023-11-09" = Some 2023%Z
  /\ Reference.iso_date_year "2023-02-30" = None
  /\ Reference.iso_date_year "11/09/2023" = None.
Proof. vm_compute. auto. Qed.

Lemma Qltb_lt (x y : Q) : Qltb x y = true <-> (x < y)%Q.
Proof.
  unfold Qltb. rewrite negb_true_iff. split.
  - intros H. apply Qnot_le_lt. intros Hle. apply Qle_bool_iff in Hle. congruence.
  - intros H. destruct (Qle_bool y x) eqn:E; [|reflexivity].
    apply Qle_bool_iff in E. exfalso. exact (Qlt_not_le _ _ H E).
Qed.

Lemma Qltb_ge (x y : Q) : Qltb x y = false <-> (y <= x)%Q.
Proof.
  unfold Qltb. rewrite negb_false_iff. apply Qle_bool_iff.
Qed.

Section ClientProperties.
Context {RT : PyRuntime}.

(** *** The quota ceiling *)

Lemma make_request_exhausted params self w :
  (max_daily_calls self <= daily_calls self)%Z ->
  exists text, _make_request params self w = (None, self, print text w).
Proof.
  intros H. unfold _make_request.
  apply Z.leb_le in H. rewrite H. eauto.
Qed.

Lemma fetch_make_request op symbol :
  exists params, forall self w, fetch op symbol self w = _make_request params self w.
Proof.
  destruct op; eexists; intros; reflexivity.
Qed.

(** The clock reading [_rate_limit] records is no earlier than one
    [min_delay] after the previous one. *)
Lemma rate_limit_waits self w :
  let elapsed := (clock w - last_call_time self)%Q in
  let '(self', w') := _rate_limit self w in
  last_call_time self' = clock w'
  /\ (last_call_time self + min_delay self <= clock w')%Q
  /\ ((elapsed < min_delay self)%Q -> w' = time_sleep (min_delay self - elapsed)%Q w)
  /\ ((min_delay self <= elapsed)%Q -> w' = w).
Proof.
  unfold _rate_limit. cbv zeta.
  destruct (Qltb _ _) eqn:E.
  - apply Qltb_lt in E. repeat split.
    + simpl. lra.
    + intros H. exfalso. lra.
  - apply Qltb_ge in E. repeat split.
    + lra.
    + intros H. exfalso. lra.
Qed.

(** What one request does to the client and the logs, whatever the network
    answers. *)
Lemma make_request_cases params self w r self' w' :
  _make_request params self w = (r, self', w') ->
  max_daily_calls self' = max_daily_calls self
  /\ min_delay self' = min_delay self
  /\ calls_per_minute self' = calls_per_minute self
  /\ ((max_daily_calls self <= daily_calls self)%Z
      /\ self' = self /\ dispatched w' = dispatched w
      \/ (daily_calls self < max_daily_calls self)%Z
         /\ daily_calls self' = (daily_calls self + 1)%Z
         /\ (last_call_time self + min_delay self <= last_call_time self')%Q
         /\ exists p, dispatched w' = (last_call_time self', p) :: dispatched w).
Proof.
  unfold _make_request.
  destruct (max_daily_calls self <=? daily_calls self)%Z eqn:E.
  - intros [= <- <- <-]. apply Z.leb_le in E. simpl. repeat split; auto.
  - apply Z.leb_gt in E.
    pose proof (rate_limit_waits self w) as Hw. cbv zeta in Hw.
    destruct (_rate_limit self w) as [self1 w1] eqn:E1.
    destruct Hw as (Hlast & Hgap & _ & _).
    assert (Hs : max_daily_calls self1 = max_daily_calls self
                 /\ min_delay self1 = min_delay self
                 /\ calls_per_minute self1 = calls_per_minute self
                 /\ daily_calls self1 = (daily_calls self + 1)%Z).
    { unfold _rate_limit in E1. injection E1 as <- <-. simpl. auto. }
    destruct Hs as (H1 & H2 & H3 & H4).
    unfold requests_get.
    destruct (network w1 _ _) as [latency reply].
    assert (Hgoal : forall text,
      w' = print text
             {| clock := (clock w1 + latency)%Q; network := network w1;
                dispatched := (clock w1, <["apikey":=api_key self1]> params) :: dispatched w1;
                slept := slept w1; stdout := stdout w1 |}
      \/ w' = {| clock := (clock w1 + latency)%Q; network := network w1;
                dispatched := (clock w1, <["apikey":=api_key self1]> params) :: dispatched w1;
                slept := slept w1; stdout := stdout w1 |} ->
      self' = self1 ->
      max_daily_calls self' = max_daily_calls self
      /\ min_delay self' = min_delay self
      /\ calls_per_minute self' = calls_per_minute self
      /\ ((max_daily_calls self <= daily_calls self)%Z
          /\ self' = self /\ dispatched w' = dispatched w
          \/ (daily_calls self < max_daily_calls self)%Z
             /\ daily_calls self' = (daily_calls self + 1)%Z
             /\ (last_call_time self + min_delay self <= last_call_time self')%Q
             /\ exists p, dispatched w' = (last_call_time self', p) :: dispatched w)).
    { intros text Hw' ->. repeat split; auto. right.
      assert (Hd : dispatched w1 = dispatched w).
      { unfold _rate_limit in E1. injection E1 as _ <-. destruct (Qltb _ _); reflexivity. }
      repeat split; auto.
      - rewrite Hlast. exact Hgap.
      - rewrite Hlast. destruct Hw' as [-> | ->]; simpl; rewrite Hd; eauto. }
    destruct reply as [msg|sc [msg|d]].
    + intros [= <- <- <-]. eapply Hgoal; [left; reflexivity | reflexivity].
    + destruct (negb _); intros [= <- <- <-];
        (eapply Hgoal; [left; reflexivity | reflexivity]).
    + destruct (negb _); [|destruct (_ !! _)]; intros [= <- <- <-].
      * eapply Hgoal; [left; reflexivity | reflexivity].
      * eapply Hgoal; [left; reflexivity | reflexivity].
      * eapply (Hgoal ""); [right; reflexivity | reflexivity].
Qed.

Lemma run_fetches_counts ops : forall self w self' w',
  run_fetches ops self w = (self', w') ->
  max_daily_calls self' = max_daily_calls self
  /\ (Z.of_nat (length (dispatched w')) - Z.of_nat (length (dispatched w))
      = daily_calls self' - daily_calls self)%Z
  /\ ((daily_calls self <= max_daily_calls self)%Z ->
      (daily_calls self' <= max_daily_calls self)%Z).
Proof.
  induction ops as [|[op symbol] ops IH]; intros self w self' w'; simpl.
  - intros [= <- <-]. repeat split; lia.
  - destruct (fetch_make_request op symbol) as [params ->].
    destruct (_make_request params self w) as [[r self1] w1] eqn:E1.
    intros H. apply IH in H as (Hmax & Hlen & Hle).
    apply make_request_cases in E1 as (Hmax1 & _ & _ & Hstep).
    rewrite Hmax1 in *.
    destruct Hstep as [(Hex & -> & Hl) | (Hlt & Hd & _ & p & Hl)]; rewrite Hl in *.
    + repeat split; auto.
    + rewrite Hd in *. simpl length in Hlen. repeat split; try lia.
Qed.

(** *** Rate spacing *)



(** C1. Once the daily call count has reached the ceiling, every fetch
    operation returns [None] at once: the client is unchanged (so are
    [last_call_time] and [daily_calls]), nothing is dispatched, nothing is
    slept and the clock does not move; only the warning is printed.
    Consequently a sequence of fetches dispatches at most what is left of the
    ceiling, and a fresh client never dispatches more than the ceiling. *)
Theorem quota_ceiling (self : AlphaVantageClient) (w : World) :
  ((max_daily_calls self <= daily_calls self)%Z ->
   forall op symbol, exists text,
     fetch op symbol self w = (None, self, print text w)
     /\ dispatched (print text w) = dispatched w
     /\ slept (print text w) = slept w
     /\ clock (print text w) = clock w)
  /\ (forall ops self' w',
        run_fetches ops self w = (self', w') ->
        (daily_calls self <= max_daily_calls self)%Z ->
        (Z.of_nat (length (dispatched w')) - Z.of_nat (length (dispatched w))
         <= max_daily_calls self - daily_calls self)%Z)
  /\ (forall api_key calls_per_minute ops self' w',
        run_fetches ops (init api_key calls_per_minute) w = (self', w') ->
        (Z.of_nat (length (dispatched w')) - Z.of_nat (length (dispatched w))
         <= Config.MAX_DAILY_CALLS)%Z).
Proof.
  split; [|split].
  - intros H op symbol.
    destruct (fetch_make_request op symbol) as [params ->].
    destruct (make_request_exhausted params self w H) as [text ->].
    exists text. auto.
  - intros ops self' w' Hrun Hle.
    apply run_fetches_counts in Hrun as (_ & Hlen & Hbound).
    specialize (Hbound Hle). lia.
  - intros key cpm ops self' w' Hrun.
    apply run_fetches_counts in Hrun as (_ & Hlen & Hbound).
    simpl in *. unfold Config.MAX_DAILY_CALLS in *. lia.
Qed.


End ClientProperties.

Lemma quota_ceiling_witness :
  (max_daily_calls Samples.exhausted_client <= daily_calls Samples.exhausted_client)%Z
  /\ exists text,
       @fetch Reference.runtime Overview "IBM" Samples.exhausted_client Samples.start_world
       = (None, Samples.exhausted_client, print text Samples.start_world)
       /\ dispatched (print text Samples.start_world) = dispatched Samples.start_world
       /\ slept (print text Samples.start_world) = slept Samples.start_world
       /\ clock (print text Samples.start_world) = clock Samples.start_world.
Proof.
  assert (H : (max_daily_calls Samples.exhausted_client
               <= daily_calls Samples.exhausted_client)%Z) by (simpl; lia).
  split; [exact H|].
  exact (proj1 (@quota_ceiling Reference.runtime Samples.exhausted_client Samples.start_world)
               H Overview "IBM").
Defined.


Example three_fetches_dispatch_times :
  (fun d => Qred d.1) <$>
    dispatched (@run_fetches Reference.runtime Samples.three_fetches
                  (init "demo" None) Samples.start_world).2
  = [1700000024; 1700000012; 1700000000]%Q.
Proof. vm_compute. reflexivity. Qed.

(** ** The rule evaluators *)

Lemma append_nonempty (s t : string) : s <> "" -> s +:+ t <> "".
Proof. destruct s; [congruence | discriminate]. Qed.

Section RuleProperties.
Context {RT : PyRuntime}.

Lemma rule_error_fails e : fails (rule_error e).
Proof. eexists. split; [reflexivity | discriminate]. Qed.

Lemma fails_reports r : fails r -> reports r.
Proof. intros (d & -> & H). exists false, d. auto. Qed.

(** The field extractor's contract. *)
Lemma get_field_raises record field :
  ~ usable record field <->
  record !! field = None \/ record !! field = Some SNone
  \/ exists s, record !! field = Some (SStr s)
               /\ (s = "" \/ s = "None" \/ s = "-" \/ py_float s = None).
Proof.
  unfold usable, get_field.
  destruct (record !! field) as [[|s|z|q]|] eqn:E; simpl.
  - split; auto.
  - destruct (bool_decide _) eqn:Hd.
    + apply bool_decide_eq_true in Hd. simpl. split; [intros _|discriminate].
      right; right. exists s. split; [reflexivity|]. tauto.
    + apply bool_decide_eq_false in Hd. destruct (py_float s) eqn:Hp; simpl.
      * split; [congruence|]. intros [H|[H|(s' & [= <-] & H)]]; try discriminate.
        exfalso. destruct H as [H|[H|[H|H]]]; try congruence; apply Hd; auto.
      * split; [intros _|discriminate]. right; right. exists s. auto.
  - split; [congruence|]. intros [H|[H|(s' & H & _)]]; discriminate.
  - split; [congruence|]. intros [H|[H|(s' & H & _)]]; discriminate.
  - split; auto.
Qed.

Lemma not_usable_raise record field :
  ~ usable record field -> exists e, get_field record field = Raise e.
Proof.
  unfold usable. destruct (get_field record field); simpl; [congruence | eauto].
Qed.

Lemma usable_ok record field :
  usable record field -> exists x, get_field record field = Ok x.
Proof.
  unfold usable. destruct (get_field record field); simpl; [eauto | discriminate].
Qed.

Lemma check_rule_1_reports ov : reports (check_rule_1_size ov).
Proof.
  unfold check_rule_1_size. unfold_bind.
  destruct (get_field _ _); simpl; [|apply fails_reports, rule_error_fails].
  eexists _, _. split; [reflexivity|]. destruct (Qltb _ _); discriminate.
Qed.

Lemma check_rule_7_reports ov : reports (check_rule_7_price_to_book ov).
Proof.
  unfold check_rule_7_price_to_book. unfold_bind.
  destruct (get_field _ _); simpl; [|apply fails_reports, rule_error_fails].
  eexists _, _. split; [reflexivity|]. destruct (Qltb _ _); discriminate.
Qed.

Lemma try_except_reports (body : result (bool * string)) :
  (forall p d, body = Ok (p, d) -> d <> "") -> reports (try_except body rule_error).
Proof.
  intros H. destruct body as [[p d]|e]; simpl.
  - exists p, d. split; [reflexivity | exact (H p d eq_refl)].
  - apply fails_reports, rule_error_fails.
Qed.

Lemma try_except_fails (body : result (bool * string)) :
  (forall p d, body = Ok (p, d) -> p = false /\ d <> "") -> fails (try_except body rule_error).
Proof.
  intros H. destruct body as [[p d]|e]; simpl.
  - destruct (H p d eq_refl) as [-> Hd]. exists d. auto.
  - apply rule_error_fails.
Qed.

Lemma ratio_part_nonempty b x : ratio_part b x <> "".
Proof. destruct b; discriminate. Qed.

Lemma debt_part_nonempty b x y : debt_part b x y <> "".
Proof. destruct b; discriminate. Qed.

Lemma check_rule_2_reports bs inc ov : reports (check_rule_2_financial_condition bs inc ov).
Proof.
  unfold check_rule_2_financial_condition. apply try_except_reports. intros p d.
  unfold_bind. repeat case_step; intros; ok_inv; try discriminate.
  unfold join. simpl. apply append_nonempty, ratio_part_nonempty.
Qed.

Lemma check_rule_3_reports inc : reports (check_rule_3_earnings_stability inc).
Proof.
  unfold check_rule_3_earnings_stability. apply try_except_reports. intros p d.
  unfold_bind. repeat case_step; intros; ok_inv; discriminate.
Qed.

Lemma check_rule_4_reports ov dv : reports (check_rule_4_dividend_record ov dv).
Proof.
  unfold check_rule_4_dividend_record. apply try_except_reports. intros p d.
  unfold_bind. repeat case_step; intros; ok_inv; discriminate.
Qed.

Lemma check_rule_5_reports inc bs : reports (check_rule_5_earnings_growth inc bs).
Proof.
  unfold check_rule_5_earnings_growth. apply try_except_reports. intros p d.
  unfold_bind. repeat case_step; intros; ok_inv; discriminate.
Qed.

Lemma check_rule_6_reports ov inc bs : reports (check_rule_6_pe_ratio ov inc bs).
Proof.
  unfold check_rule_6_pe_ratio. apply try_except_reports. intros p d.
  unfold_bind. repeat case_step; intros; ok_inv; discriminate.
Qed.

(** *** Missing data fails the rule *)

Lemma check_rule_1_missing ov : rule_1_data_missing ov -> fails (check_rule_1_size ov).
Proof.
  intros H. apply not_usable_raise in H as [e He].
  unfold check_rule_1_size. rewrite He. apply rule_error_fails.
Qed.

Lemma check_rule_7_missing ov : rule_7_data_missing ov -> fails (check_rule_7_price_to_book ov).
Proof.
  intros H. apply not_usable_raise in H as [e He].
  unfold check_rule_7_price_to_book. rewrite He. apply rule_error_fails.
Qed.

Lemma check_rule_2_missing bs inc ov :
  rule_2_data_missing bs ov -> fails (check_rule_2_financial_condition bs inc ov).
Proof.
  unfold rule_2_data_missing, check_rule_2_financial_condition.
  destruct (annualReports bs) as [[|latest rest]|];
    [intros _; eexists; split; [reflexivity|discriminate] | |
     intros _; eexists; split; [reflexivity|discriminate]].
  intros H. apply try_except_fails. intros p d. unfold_bind.
  destruct (get_field latest "longTermDebt") as [ltd|] eqn:E1; [|discriminate].
  destruct (get_field latest "shortTermDebt") as [std|] eqn:E2; [|discriminate].
  destruct (get_field latest "totalShareholderEquity") as [eq|] eqn:E3; [|discriminate].
  destruct H as [H|[H|[H|H]]];
    try (exfalso; apply H; unfold usable; rewrite ?E1, ?E2, ?E3; reflexivity).
  destruct (match (if Qltb 0 eq then _ else _) with Ok a => _ | Raise e => _ end) eqn:E4;
    [|discriminate].
  destruct (if Qltb 0 eq then _ else _) as [r|]; [|discriminate].
  destruct (sector_lower ov) as [sector|] eqn:E5; [|discriminate].
  destruct H as [H|[Hs H]]; [discriminate|].
  destruct (String.eqb sector "utilities") eqn:E6.
  { apply String.eqb_eq in E6. congruence. }
  destruct (get_field latest "totalCurrentAssets") as [ca|] eqn:E7;
    [|discriminate].
  destruct (get_field latest "totalCurrentLiabilities") as [cl|] eqn:E8;
    [|discriminate].
  exfalso. destruct H as [H|H]; apply H; unfold usable; rewrite ?E7, ?E8; reflexivity.
Qed.

Lemma count_positive_raises reports r :
  r ∈ reports -> ~ usable r "netIncome" -> exists e, count_positive reports = Raise e.
Proof.
  intros Hin Hr. induction Hin as [r l|r r' l Hin IH]; simpl; unfold_bind.
  - apply not_usable_raise in Hr as [e ->]. eauto.
  - destruct (get_field r' "netIncome"); [|eauto].
    destruct (IH Hr) as [e ->]. eauto.
Qed.

Lemma check_rule_3_missing inc :
  rule_3_data_missing inc -> fails (check_rule_3_earnings_stability inc).
Proof.
  unfold rule_3_data_missing, check_rule_3_earnings_stability, fewer_than, first_reports.
  intros H. apply try_except_fails. intros p d. unfold_bind.
  destruct (annualReports inc) as [[|r0 rest]|]; simpl default in *;
    [intros [= <- <-]; split; [reflexivity|discriminate] | |
     intros [= <- <-]; split; [reflexivity|discriminate]].
  destruct (length (take _ _) <? _)%nat eqn:E;
    [intros [= <- <-]; split; [reflexivity|discriminate]|].
  destruct H as [H|(r & Hin & Hr)].
  { apply Nat.ltb_lt in H. apply Nat.ltb_ge in E. rewrite length_take in E.
    unfold Config.MIN_EARNINGS_YEARS in E. lia. }
  destruct (count_positive_raises _ r Hin Hr) as [e He].
  unfold Config.MIN_EARNINGS_YEARS in *. rewrite He. discriminate.
Qed.

Lemma check_rule_4_missing ov dv :
  rule_4_data_missing ov dv -> fails (check_rule_4_dividend_record ov dv).
Proof.
  unfold rule_4_data_missing, check_rule_4_dividend_record.
  intros H. apply try_except_fails. intros p d. unfold_bind.
  destruct (get_field (fields ov) "DividendYield") as [dy|] eqn:E1; [|discriminate].
  destruct H as [H|H]; [exfalso; apply H; unfold usable; rewrite E1; reflexivity|].
  destruct (data dv) as [[|r0 rest]|]; simpl default in H;
    [intros [= <- <-]; split; [reflexivity|discriminate] | |
     intros [= <- <-]; split; [reflexivity|discriminate]].
  rewrite H. rewrite bool_decide_eq_true_2 by reflexivity.
  intros [= <- <-]; split; [reflexivity|discriminate].
Qed.

(** *** The per-year EPS lists *)

Lemma length_omap_le {A B} (f : A -> option B) (l : list A) :
  (length (omap f l) <= length l)%nat.
Proof. induction l as [|x l IH]; csimpl; [lia|]. destruct (f x); csimpl; lia. Qed.

Lemma length_omap_lt {A B} (f : A -> option B) (l : list A) i x :
  l !! i = Some x -> f x = None -> (length (omap f l) < length l)%nat.
Proof.
  revert i. induction l as [|y l IH]; intros [|i]; csimpl; try discriminate.
  - intros [= ->] ->. pose proof (length_omap_le f l). lia.
  - intros Hl Hx. specialize (IH i Hl Hx). destruct (f y); csimpl; lia.
Qed.

Lemma length_omap_all {A B} (f : A -> option B) (l : list A) :
  length (omap f l) = length l -> forall x, x ∈ l -> is_Some (f x).
Proof.
  intros Hlen x [i Hi]%list_elem_of_lookup.
  destruct (f x) eqn:E; [eauto|].
  pose proof (length_omap_lt f l i x Hi E). lia.
Qed.

Lemma eps_values_5_lookup incs bals i r b :
  incs !! i = Some r -> bals !! i = Some b ->
  eps_values_5 incs bals !! i = Some (eps_or_none (r, b)).
Proof.
  intros Hr Hb. unfold eps_values_5. rewrite list_lookup_fmap.
  rewrite lookup_zip_with, Hr, Hb. reflexivity.
Qed.

Lemma eps_of_raises r b :
  ~ usable r "netIncome" \/ ~ usable b "commonStockSharesOutstanding" ->
  eps_or_none (r, b) = None.
Proof.
  unfold eps_or_none, eps_of. unfold_bind. simpl.
  intros [H|H]; apply not_usable_raise in H as [e He].
  - rewrite He. reflexivity.
  - destruct (get_field r "netIncome"); [|reflexivity]. rewrite He. reflexivity.
Qed.

Lemma eps_year_missing_take n inc bs :
  eps_year_missing n inc bs ->
  exists i p, zip (first_reports n inc) (first_reports n bs) !! i = Some p
              /\ eps_or_none p = None.
Proof.
  intros (i & r & b & Hi & Hr & Hb & Hm).
  exists i, (r, b). split; [|apply eps_of_raises; exact Hm].
  unfold first_reports. rewrite lookup_zip_with.
  rewrite !lookup_take_lt by exact Hi. rewrite Hr, Hb. reflexivity.
Qed.

Lemma length_first_reports_zip n inc bs :
  (length (zip (first_reports n inc) (first_reports n bs)) <= n)%nat.
Proof.
  unfold first_reports. rewrite length_zip_with, !length_take. lia.
Qed.

Lemma check_rule_5_missing inc bs :
  rule_5_data_missing inc bs -> fails (check_rule_5_earnings_growth inc bs).
Proof.
  unfold rule_5_data_missing, check_rule_5_earnings_growth.
  intros H. apply try_except_fails. intros p d.
  destruct (fewer_than 10 inc) eqn:E1;
    [intros [= <- <-]; split; [reflexivity|discriminate]|].
  destruct (fewer_than 10 bs) eqn:E2;
    [intros [= <- <-]; split; [reflexivity|discriminate]|].
  destruct H as [H|[H|H]]; try discriminate.
  apply eps_year_missing_take in H as (i & q & Hq & Hnone).
  cbv zeta.
  assert (Hlt : (length (omap id (eps_values_5 (first_reports 10 inc) (first_reports 10 bs)))
                 <? 10)%nat = true).
  { apply Nat.ltb_lt.
    assert (Hl : eps_values_5 (first_reports 10 inc) (first_reports 10 bs) !! i = Some None).
    { unfold eps_values_5. rewrite list_lookup_fmap, Hq. simpl. f_equal. exact Hnone. }
    pose proof (length_omap_lt id _ i None Hl eq_refl) as Hlen.
    unfold eps_values_5 in Hlen at 2. rewrite length_fmap in Hlen.
    pose proof (length_first_reports_zip 10 inc bs). lia. }
  rewrite Hlt. intros [= <- <-]; split; [reflexivity|discriminate].
Qed.

Lemma check_rule_6_missing ov inc bs :
  rule_6_data_missing ov inc bs -> fails (check_rule_6_pe_ratio ov inc bs).
Proof.
  unfold rule_6_data_missing, check_rule_6_pe_ratio.
  intros H. apply try_except_fails. intros p d. unfold_bind.
  destruct (get_field (fields ov) "50DayMovingAverage") as [price|] eqn:E0; [|discriminate].
  destruct H as [H|H]; [exfalso; apply H; unfold usable; rewrite E0; reflexivity|].
  destruct (fewer_than 3 inc) eqn:E1;
    [intros [= <- <-]; split; [reflexivity|discriminate]|].
  destruct (fewer_than 3 bs) eqn:E2;
    [intros [= <- <-]; split; [reflexivity|discriminate]|].
  destruct H as [H|[H|H]]; try discriminate.
  apply eps_year_missing_take in H as (i & q & Hq & Hnone).
  cbv zeta.
  assert (Hlt : (length (eps_values_6 (first_reports 3 inc) (first_reports 3 bs)) <? 3)%nat
                = true).
  { apply Nat.ltb_lt. unfold eps_values_6.
    pose proof (length_omap_lt eps_or_none _ i q Hq Hnone) as Hlen.
    pose proof (length_first_reports_zip 3 inc bs). unfold eps_or_none in Hlen. lia. }
  rewrite Hlt. intros [= <- <-]; split; [reflexivity|discriminate].
Qed.

(** C2. Each of the seven evaluators returns a [(passed, detail)] pair for
    every input, never raising, and the detail is a non-empty string; when a
    field or series the rule requires is missing or malformed, [passed] is
    [False], and so it is when the fetch of a dataset the rule requires
    failed (the evaluator then receives [{}]). *)
Theorem evaluators_never_raise :
  (forall ov, reports (check_rule_1_size ov)
              /\ (rule_1_data_missing ov -> fails (check_rule_1_size ov)))
  /\ (forall bs inc ov,
        reports (check_rule_2_financial_condition bs inc ov)
        /\ (rule_2_data_missing bs ov -> fails (check_rule_2_financial_condition bs inc ov)))
  /\ (forall inc, reports (check_rule_3_earnings_stability inc)
                  /\ (rule_3_data_missing inc -> fails (check_rule_3_earnings_stability inc)))
  /\ (forall ov dv, reports (check_rule_4_dividend_record ov dv)
                    /\ (rule_4_data_missing ov dv -> fails (check_rule_4_dividend_record ov dv)))
  /\ (forall inc bs, reports (check_rule_5_earnings_growth inc bs)
                     /\ (rule_5_data_missing inc bs
                         -> fails (check_rule_5_earnings_growth inc bs)))
  /\ (forall ov inc bs, reports (check_rule_6_pe_ratio ov inc bs)
                        /\ (rule_6_data_missing ov inc bs
                            -> fails (check_rule_6_pe_ratio ov inc bs)))
  /\ (forall ov, reports (check_rule_7_price_to_book ov)
                 /\ (rule_7_data_missing ov -> fails (check_rule_7_price_to_book ov)))
  /\ (forall ov inc bs,
        fails (check_rule_2_financial_condition (or_empty None) inc ov)
        /\ fails (check_rule_3_earnings_stability (or_empty None))
        /\ fails (check_rule_4_dividend_record ov (or_empty None))
        /\ fails (check_rule_5_earnings_growth (or_empty None) bs)
        /\ fails (check_rule_5_earnings_growth inc (or_empty None))
        /\ fails (check_rule_6_pe_ratio ov (or_empty None) bs)
        /\ fails (check_rule_6_pe_ratio ov inc (or_empty None))).
Proof.
  repeat split;
    auto using check_rule_1_reports, check_rule_2_reports, check_rule_3_reports,
      check_rule_4_reports, check_rule_5_reports, check_rule_6_reports, check_rule_7_reports,
      check_rule_1_missing, check_rule_2_missing, check_rule_3_missing,
      check_rule_4_missing, check_rule_5_missing, check_rule_6_missing, check_rule_7_missing.
  - apply check_rule_2_missing. exact I.
  - apply check_rule_3_missing. left. reflexivity.
  - apply check_rule_4_missing. right. reflexivity.
  - apply check_rule_5_missing. left. reflexivity.
  - apply check_rule_5_missing. right. left. reflexivity.
  - apply check_rule_6_missing. right. left. reflexivity.
  - apply check_rule_6_missing. right. right. left. reflexivity.
Qed.

End RuleProperties.

(** ** The aggregator *)

Section AggregatorProperties.
Context {RT : PyRuntime}.

Lemma fold_record_rule_passed rules : forall r0,
  rules_passed (fold_left record_rule rules r0)
  = (rules_passed r0 ++ (filter (fun r => r.2.1 = true) rules).*1)%list.
Proof.
  induction rules as [|[name [passed detail]] rules IH]; intros r0; simpl.
  - rewrite app_nil_r. reflexivity.
  - rewrite IH. simpl. destruct passed.
    + rewrite filter_cons_True by reflexivity. simpl. rewrite <- app_assoc. reflexivity.
    + rewrite filter_cons_False by (simpl; congruence). reflexivity.
Qed.

Lemma count_passed_named (names : list string) (outcomes : list (bool * string)) :
  length names = length outcomes ->
  length (filter (fun r : string * (bool * string) => r.2.1 = true) (zip names outcomes))
  = count_passed outcomes.
Proof.
  unfold count_passed. revert outcomes.
  induction names as [|n names IH]; intros [|[p d] outcomes]; simpl; try discriminate.
  - reflexivity.
  - intros [= Hlen]. destruct p.
    + rewrite !filter_cons_True by reflexivity. simpl. f_equal. apply IH, Hlen.
    + rewrite !filter_cons_False by (simpl; congruence). apply IH, Hlen.
Qed.

Lemma run_rules_inv ov inc bs dv rules :
  run_rules ov inc bs dv = Ok rules ->
  exists o1 o2 o3 o4 o5 o6 o7,
    check_rule_1_size ov = Ok o1
    /\ check_rule_2_financial_condition (or_empty bs) (or_empty inc) ov = Ok o2
    /\ check_rule_3_earnings_stability (or_empty inc) = Ok o3
    /\ check_rule_4_dividend_record ov (or_empty dv) = Ok o4
    /\ check_rule_5_earnings_growth (or_empty inc) (or_empty bs) = Ok o5
    /\ check_rule_6_pe_ratio ov (or_empty inc) (or_empty bs) = Ok o6
    /\ check_rule_7_price_to_book ov = Ok o7
    /\ rules = zip rule_names [o1; o2; o3; o4; o5; o6; o7].
Proof.
  unfold run_rules. unfold_bind.
  destruct (check_rule_1_size ov) as [o1|]; [|discriminate].
  destruct (check_rule_2_financial_condition _ _ _) as [o2|]; [|discriminate].
  destruct (check_rule_3_earnings_stability _) as [o3|]; [|discriminate].
  destruct (check_rule_4_dividend_record _ _) as [o4|]; [|discriminate].
  destruct (check_rule_5_earnings_growth _ _) as [o5|]; [|discriminate].
  destruct (check_rule_6_pe_ratio _ _ _) as [o6|]; [|discriminate].
  destruct (check_rule_7_price_to_book _) as [o7|]; [|discriminate].
  intros [= <-]. exists o1, o2, o3, o4, o5, o6, o7. repeat split; reflexivity.
Qed.

Lemma fold_results_tally symbol ov (o1 o2 o3 o4 o5 o6 o7 : bool * string) :
  let outcomes := [o1; o2; o3; o4; o5; o6; o7] in
  let results := fold_results symbol ov (zip rule_names outcomes) in
  rule_details results = zip rule_names outcomes.*2
  /\ rules_passed results = (filter (fun r => r.2.1 = true) (zip rule_names outcomes)).*1
  /\ total_passed results = count_passed outcomes
  /\ passes_all results = (count_passed outcomes =? 7)%nat.
Proof.
  intros outcomes results.
  assert (Hp : rules_passed results
               = (filter (fun r => r.2.1 = true) (zip rule_names outcomes)).*1).
  { unfold results, fold_results. cbn [rules_passed].
    rewrite fold_record_rule_passed. reflexivity. }
  assert (Ht : total_passed results = count_passed outcomes).
  { transitivity (length (rules_passed results)); [reflexivity|].
    rewrite Hp, length_fmap. apply count_passed_named. reflexivity. }
  split; [|split; [exact Hp | split; [exact Ht|]]].
  - subst results outcomes.
    destruct o1 as [p1 d1], o2 as [p2 d2], o3 as [p3 d3], o4 as [p4 d4],
             o5 as [p5 d5], o6 as [p6 d6], o7 as [p7 d7].
    reflexivity.
  - rewrite <- Ht. reflexivity.
Qed.

(** C3. Whenever [evaluate_stock] returns a result, it has fetched the
    overview, income statement, balance sheet and dividends in that order and
    applied the seven evaluators in rule order 1 to 7 (a missing dataset
    being replaced by [{}]); [rule_details] lists the seven details in that
    order, [total_passed] is the number of outcomes whose [passed] is true,
    and [passes_all] holds exactly when [total_passed] is 7. *)
Theorem evaluate_stock_tally (symbol : string) (verbose : bool)
    (client : AlphaVantageClient) (w : World)
    (results : Results) (client' : AlphaVantageClient) (w' : World) :
  evaluate_stock symbol verbose client w = (Some results, client', w') ->
  exists ov inc bs dv o1 o2 o3 o4 o5 o6 o7,
    let outcomes := [o1; o2; o3; o4; o5; o6; o7] in
    (exists w0 c1 w1 c2 w2 c3 w3 w4,
        get_overview symbol client w0 = (Some ov, c1, w1)
        /\ get_income_statement symbol c1 w1 = (inc, c2, w2)
        /\ get_balance_sheet symbol c2 w2 = (bs, c3, w3)
        /\ get_dividends symbol c3 w3 = (dv, client', w4))
    /\ check_rule_1_size ov = Ok o1
    /\ check_rule_2_financial_condition (or_empty bs) (or_empty inc) ov = Ok o2
    /\ check_rule_3_earnings_stability (or_empty inc) = Ok o3
    /\ check_rule_4_dividend_record ov (or_empty dv) = Ok o4
    /\ check_rule_5_earnings_growth (or_empty inc) (or_empty bs) = Ok o5
    /\ check_rule_6_pe_ratio ov (or_empty inc) (or_empty bs) = Ok o6
    /\ check_rule_7_price_to_book ov = Ok o7
    /\ rule_details results = zip rule_names outcomes.*2
    /\ total_passed results = count_passed outcomes
    /\ (passes_all results = true <-> total_passed results = 7%nat).
Proof.
  unfold evaluate_stock.
  set (w0 := if verbose then _ else w).
  destruct (get_overview symbol client w0) as [[[ov|] c1] w1] eqn:E1; [|discriminate].
  destruct (dict_truthy ov && _); [|discriminate].
  destruct (get_income_statement symbol c1 w1) as [[inc c2] w2] eqn:E2.
  destruct (get_balance_sheet symbol c2 w2) as [[bs c3] w3] eqn:E3.
  destruct (get_dividends symbol c3 w3) as [[dv c4] w4] eqn:E4.
  destruct (run_rules ov inc bs dv) as [rules|] eqn:E5; [|discriminate].
  intros [= <- <- <-].
  apply run_rules_inv in E5
    as (o1 & o2 & o3 & o4 & o5 & o6 & o7 & H1 & H2 & H3 & H4 & H5 & H6 & H7 & ->).
  exists ov, inc, bs, dv, o1, o2, o3, o4, o5, o6, o7. cbv zeta.
  destruct (fold_results_tally symbol ov o1 o2 o3 o4 o5 o6 o7) as (Hd & _ & Ht & Ha).
  repeat split; try assumption.
  - exists w0, c1, w1, c2, w2, c3, w3, w4. auto.
  - rewrite Ha, Ht. apply Nat.eqb_eq.
  - rewrite Ha, Ht. apply Nat.eqb_eq.
Qed.

End AggregatorProperties.

(** ** Rule 5: earnings growth *)

Section GrowthProperties.
Context {RT : PyRuntime}.





End GrowthProperties.

(** ** Rule 4: the dividend record *)

Section DividendProperties.
Context {RT : PyRuntime}.

(** A record contributes a year exactly when its ex-dividend date is a
    non-empty string that [strptime] accepts. *)
Lemma record_year_valid record y :
  record_year record = Some y <->
  exists s, record !! "ex_dividend_date" = Some (SStr s) /\ s <> ""
            /\ strptime_year s = Some y.
Proof.
  unfold record_year.
  destruct (record !! "ex_dividend_date") as [[|s|z|q]|] eqn:E; simpl.
  - split; [discriminate | intros (s & [=] & _)].
  - destruct (String.eqb s "") eqn:Es; simpl.
    + apply String.eqb_eq in Es. split; [discriminate|].
      intros (s' & [= <-] & Hne & _). contradiction.
    + apply String.eqb_neq in Es. split.
      * intros H. exists s. auto.
      * intros (s' & [= <-] & _ & H). exact H.
  - split; [destruct (negb _); discriminate | intros (s & [=] & _)].
  - split; [destruct (negb _); discriminate | intros (s & [=] & _)].
  - split; [discriminate | intros (s & [=] & _)].
Qed.

Lemma years_with_dividends_fold records : forall (acc : gset Z) y,
  y ∈ fold_left (fun years record =>
                   match record_year record with
                   | Some year => years ∪ {[year]}
                   | None => years
                   end) records acc
  <-> y ∈ acc \/ exists r, r ∈ records /\ record_year r = Some y.
Proof.
  induction records as [|r records IH]; intros acc y; simpl.
  - split; [auto | intros [H|(r & Hr & _)]; [exact H | inversion Hr]].
  - rewrite IH. split.
    + intros [H|(r' & Hin & Hy)].
      * destruct (record_year r) as [year|] eqn:E; [|auto].
        apply elem_of_union in H as [H|H]; [auto|].
        apply elem_of_singleton in H as ->. right. exists r. split; [left|exact E].
      * right. exists r'. split; [right; exact Hin | exact Hy].
    + intros [H|(r' & Hin & Hy)].
      * left. destruct (record_year r); [apply elem_of_union; auto | exact H].
      * apply elem_of_cons in Hin as [->|Hin].
        -- left. rewrite Hy. apply elem_of_union. right. apply elem_of_singleton. reflexivity.
        -- right. exists r'. auto.
Qed.

Lemma elem_of_years_with_dividends records y :
  y ∈ years_with_dividends records <-> exists r, r ∈ records /\ record_year r = Some y.
Proof.
  unfold years_with_dividends. rewrite years_with_dividends_fold.
  split; [intros [H|H]; [|exact H] | auto].
  exfalso. exact (not_elem_of_empty y H).
Qed.

Lemma Zge_total : Total Z.ge.
Proof. intros x y. lia. Qed.

Lemma Zge_trans : Transitive Z.ge.
Proof. intros x y z. lia. Qed.

Lemma sorted_desc_elem_of years y : y ∈ sorted_desc years <-> y ∈ years.
Proof.
  unfold sorted_desc. rewrite merge_sort_Permutation. apply elem_of_elements.
Qed.

Lemma sorted_desc_strict years : StronglySorted Z.gt (sorted_desc years).
Proof.
  unfold sorted_desc.
  assert (Hnd : NoDup (merge_sort Z.ge (elements years))).
  { rewrite merge_sort_Permutation. apply NoDup_elements. }
  pose proof (@StronglySorted_merge_sort Z Z.ge _ Zge_trans Zge_total (elements years))
    as Hs.
  induction Hs as [|x l Hs IH Hall]; [constructor|].
  apply NoDup_cons in Hnd as [Hx Hnd].
  constructor; [exact (IH Hnd)|].
  rewrite Forall_forall in *. intros y Hy. specialize (Hall y Hy).
  assert (x <> y) by (intros ->; contradiction). lia.
Qed.

Lemma sorted_desc_nil years : sorted_desc years = [] <-> years = ∅.
Proof.
  split.
  - intros H. apply set_eq. intros y. rewrite <- sorted_desc_elem_of, H.
    split; [intros Hy; inversion Hy | intros Hy; exfalso; exact (not_elem_of_empty y Hy)].
  - intros ->. reflexivity.
Qed.

(** The counting loop, entered at index [i] with [i] years counted so far,
    all of them in a run from [top]. *)
Lemma consecutive_loop_run (sorted_years : list Z) (top : Z) :
  sorted_years !! 0%nat = Some top ->
  forall remaining pre,
    sorted_years = (pre ++ remaining)%list ->
    (forall j, (j < length pre)%nat -> sorted_years !! j = Some (top - Z.of_nat j)%Z) ->
    (remaining = [] -> pre <> []) ->
    let n := consecutive_loop sorted_years (length pre) remaining (length pre) in
    (1 <= n <= length sorted_years)%nat
    /\ (forall j, (j < n)%nat -> sorted_years !! j = Some (top - Z.of_nat j)%Z)
    /\ (forall y, sorted_years !! n = Some y -> y <> (top - Z.of_nat n)%Z).
Proof.
  intros Htop remaining.
  induction remaining as [|year remaining IH]; intros pre Heq Hrun Hne; simpl.
  - rewrite app_nil_r in Heq. subst pre.
    assert (length sorted_years <> 0)%nat.
    { destruct sorted_years; [exfalso; apply Hne; reflexivity | discriminate]. }
    split; [lia|]. split; [exact Hrun|].
    intros y Hy. apply lookup_lt_Some in Hy. lia.
  - assert (Hyear : sorted_years !! length pre = Some year).
    { rewrite Heq. rewrite lookup_app_r by lia. rewrite Nat.sub_diag. reflexivity. }
    assert (Hnext : sorted_years = ((pre ++ [year]) ++ remaining)%list).
    { rewrite <- app_assoc. exact Heq. }
    assert (Hlen : length (pre ++ [year]) = S (length pre)).
    { rewrite length_app. simpl. lia. }
    destruct (length pre =? 0)%nat eqn:E0.
    + apply Nat.eqb_eq in E0. specialize (IH (pre ++ [year])%list Hnext).
      rewrite Hlen, E0 in IH. rewrite E0. apply IH.
      * intros j Hj. assert (j = 0%nat) as -> by lia.
        rewrite E0 in Hyear. rewrite Htop in Hyear. injection Hyear as <-.
        rewrite Htop. f_equal. lia.
      * intros _ Hnil. destruct pre; discriminate.
    + apply Nat.eqb_neq in E0.
      assert (Hprev : sorted_years !! (length pre - 1)%nat
                      = Some (top - Z.of_nat (length pre - 1))%Z) by (apply Hrun; lia).
      rewrite Hprev. simpl.
      destruct (bool_decide _) eqn:Ed.
      * apply bool_decide_eq_true in Ed. injection Ed as Ed.
        specialize (IH (pre ++ [year])%list Hnext). rewrite Hlen in IH. apply IH.
        -- intros j Hj. destruct (decide (j = length pre)) as [->|Hneq].
           ++ rewrite Hyear. f_equal. lia.
           ++ apply Hrun. lia.
        -- intros _ Hnil. destruct pre; discriminate.
      * apply bool_decide_eq_false in Ed.
        pose proof (lookup_lt_Some _ _ _ Hyear) as Hlt.
        split; [lia|]. split; [exact Hrun|].
        intros y Hy. rewrite Hyear in Hy. injection Hy as <-.
        intros Heqy. apply Ed. f_equal. lia.
Qed.

Lemma count_consecutive_run (sorted_years : list Z) (top : Z) :
  sorted_years !! 0%nat = Some top ->
  let n := count_consecutive sorted_years in
  (1 <= n <= length sorted_years)%nat
  /\ (forall j, (j < n)%nat -> sorted_years !! j = Some (top - Z.of_nat j)%Z)
  /\ (forall y, sorted_years !! n = Some y -> y <> (top - Z.of_nat n)%Z).
Proof.
  intros Htop. unfold count_consecutive.
  apply (consecutive_loop_run sorted_years top Htop sorted_years []).
  - reflexivity.
  - simpl. intros j Hj. lia.
  - intros ->. discriminate.
Qed.

Lemma strictly_descending (l : list Z) i j a b :
  StronglySorted Z.gt l -> (i < j)%nat ->
  l !! i = Some a -> l !! j = Some b -> (b < a)%Z.
Proof.
  intros Hs. revert i j. induction Hs as [|x l Hs IH Hall]; intros i j Hij Ha Hb.
  - discriminate.
  - destruct j as [|j]; [lia|]. simpl in Hb. destruct i as [|i].
    + injection Ha as <-. rewrite Forall_forall in Hall.
      specialize (Hall b (list_elem_of_lookup_2 _ _ _ Hb)). lia.
    + simpl in Ha. apply (IH i j); [lia | exact Ha | exact Hb].
Qed.

(** In terms of the set of years: the run counted from the most recent year
    [top] covers [top], [top - 1], ..., and the first year below it is
    missing. *)
Lemma count_consecutive_years (years : gset Z) (top : Z) :
  sorted_desc years !! 0%nat = Some top ->
  let n := count_consecutive (sorted_desc years) in
  (forall y, y ∈ years -> (y <= top)%Z)
  /\ (forall j, (j < n)%nat -> (top - Z.of_nat j)%Z ∈ years)
  /\ (top - Z.of_nat n)%Z ∉ years.
Proof.
  intros Htop n.
  destruct (count_consecutive_run _ top Htop) as ([Hn1 Hn2] & Hrun & Hgap).
  fold n in Hn1, Hn2, Hrun, Hgap.
  pose proof (sorted_desc_strict years) as Hs.
  split; [|split].
  - intros y Hy. apply sorted_desc_elem_of in Hy.
    apply list_elem_of_lookup in Hy as [k Hk].
    destruct k as [|k]; [rewrite Htop in Hk; injection Hk as <-; lia|].
    pose proof (strictly_descending _ 0 (S k) top y Hs ltac:(lia) Htop Hk). lia.
  - intros j Hj. apply sorted_desc_elem_of.
    apply (list_elem_of_lookup_2 _ j). apply Hrun, Hj.
  - intros Hy. apply sorted_desc_elem_of in Hy.
    apply list_elem_of_lookup in Hy as [k Hk].
    destruct (Nat.lt_ge_cases k n) as [Hlt|Hge].
    + rewrite (Hrun k Hlt) in Hk. injection Hk as Hk. lia.
    + assert (Hlen : (n < length (sorted_desc years))%nat).
      { apply lookup_lt_Some in Hk. lia. }
      destruct (lookup_lt_is_Some_2 _ _ Hlen) as [y Hy].
      pose proof (Hgap y Hy) as Hne.
      pose proof (Hrun (n - 1)%nat ltac:(lia)) as Hprev.
      pose proof (strictly_descending _ (n - 1) n _ y Hs ltac:(lia) Hprev Hy) as Hlt.
      destruct (decide (k = n)) as [->|Hkn].
      * rewrite Hy in Hk. injection Hk as ->. lia.
      * pose proof (strictly_descending _ n k y _ Hs ltac:(lia) Hy Hk). lia.
Qed.

(** C6 (amended). When the overview's dividend yield is usable, Rule 4 takes
    the distinct calendar years of the records whose ex-dividend date is a
    non-empty string accepted by [strptime], sorts them in descending order,
    and counts the longest prefix that decreases by exactly one from the most
    recent year, stopping at the first gap (so the years [top], [top - 1],
    ... counted are all present and the next one down is not); the rule
    passes exactly when that count is at least 20.  Years 2023, 2022, 2021,
    2019 give 3 and fail; the years 2004 to 2023 give 20 and pass. *)
Theorem rule_4_consecutive_years (ov dv : Dict) (dividend_yield : Q) :
  get_field (fields ov) "DividendYield" = Ok dividend_yield ->
  let records := default [] (data dv) in
  let years := years_with_dividends records in
  let sorted_years := sorted_desc years in
  let n := count_consecutive sorted_years in
  (forall y, y ∈ years <->
     exists r s, r ∈ records /\ r !! "ex_dividend_date" = Some (SStr s) /\ s <> ""
                 /\ strptime_year s = Some y)
  /\ StronglySorted Z.gt sorted_years
  /\ (forall y, y ∈ sorted_years <-> y ∈ years)
  /\ (years = ∅ -> n = 0%nat)
  /\ (forall top, sorted_years !! 0%nat = Some top ->
        (1 <= n <= length sorted_years)%nat
        /\ (forall j, (j < n)%nat -> sorted_years !! j = Some (top - Z.of_nat j)%Z)
        /\ (forall y, sorted_years !! n = Some y -> y <> (top - Z.of_nat n)%Z)
        /\ (forall y, y ∈ years -> (y <= top)%Z)
        /\ (forall j, (j < n)%nat -> (top - Z.of_nat j)%Z ∈ years)
        /\ (top - Z.of_nat n)%Z ∉ years)
  /\ (exists detail,
        check_rule_4_dividend_record ov dv = Ok (bool_decide (20 <= n)%nat, detail))
  /\ (years = {[2023; 2022; 2021; 2019]}%Z ->
        n = 3%nat /\ exists detail, check_rule_4_dividend_record ov dv = Ok (false, detail))
  /\ (years = list_to_set (seqZ 2004 20) ->
        n = 20%nat /\ exists detail, check_rule_4_dividend_record ov dv = Ok (true, detail)).
Proof.
  intros Hdy records years sorted_years n.
  assert (Hempty : years = ∅ -> n = 0%nat).
  { intros H. unfold n, sorted_years. rewrite H. reflexivity. }
  assert (Hdec : exists detail,
             check_rule_4_dividend_record ov dv = Ok (bool_decide (20 <= n)%nat, detail)).
  { unfold check_rule_4_dividend_record. rewrite Hdy. unfold_bind.
    assert (Hnone : bool_decide (20 <= 0)%nat = false) by reflexivity.
    subst n sorted_years years records.
    destruct (data dv) as [[|r l]|]; simpl default.
    - eexists. simpl. rewrite <- Hnone. reflexivity.
    - destruct (bool_decide (years_with_dividends (r :: l) = ∅)) eqn:E.
      + apply bool_decide_eq_true in E. rewrite E. eexists. simpl.
        rewrite <- Hnone. reflexivity.
      + unfold Config.MIN_DIVIDEND_YEARS.
        destruct (20 <=? _)%nat eqn:E20; eexists; simpl; f_equal; f_equal.
        * apply Nat.leb_le in E20. symmetry. apply bool_decide_eq_true_2. exact E20.
        * apply Nat.leb_gt in E20. symmetry. apply bool_decide_eq_false_2. lia.
    - eexists. simpl. rewrite <- Hnone. reflexivity. }
  split.
  { intros y. unfold years. rewrite elem_of_years_with_dividends. split.
    - intros (r & Hin & Hy). apply record_year_valid in Hy as (s & H1 & H2 & H3).
      exists r, s. auto.
    - intros (r & s & Hin & H1 & H2 & H3). exists r. split; [exact Hin|].
      apply record_year_valid. exists s. auto. }
  split; [apply sorted_desc_strict|].
  split; [apply sorted_desc_elem_of|].
  split; [exact Hempty|].
  split.
  { intros top Htop.
    destruct (count_consecutive_run sorted_years top Htop) as (Hb & Hrun & Hgap).
    destruct (count_consecutive_years years top Htop) as (Hmax & Hin & Hout).
    repeat split; try assumption; apply Hb. }
  split; [exact Hdec|].
  destruct Hdec as [detail Hdec].
  split; intros Hy.
  - assert (Hn : n = 3%nat).
    { unfold n, sorted_years. rewrite Hy. vm_compute. reflexivity. }
    split; [exact Hn|]. exists detail. rewrite Hdec, Hn. reflexivity.
  - assert (Hn : n = 20%nat).
    { unfold n, sorted_years. rewrite Hy. vm_compute. reflexivity. }
    split; [exact Hn|]. exists detail. rewrite Hdec, Hn. reflexivity.
Qed.

End DividendProperties.

(** ** Rule 3: earnings stability *)

Section StabilityProperties.
Context {RT : PyRuntime}.

Lemma positive_years_cons r reports :
  positive_years (r :: reports)
  = if is_positive_year r then S (positive_years reports) else positive_years reports.
Proof.
  unfold positive_years. destruct (is_positive_year r) eqn:E.
  - rewrite filter_cons_True by exact E. reflexivity.
  - rewrite filter_cons_False by congruence. reflexivity.
Qed.

Lemma positive_years_le reports : (positive_years reports <= length reports)%nat.
Proof. apply length_filter. Qed.

Lemma positive_years_all reports :
  positive_years reports = length reports <->
  forall r, r ∈ reports -> is_positive_year r = true.
Proof.
  induction reports as [|r reports IH]; simpl.
  - split; [intros _ r Hr; inversion Hr | reflexivity].
  - rewrite positive_years_cons. pose proof (positive_years_le reports).
    destruct (is_positive_year r) eqn:E.
    + split.
      * intros [= H']. intros r' [->|Hin]%elem_of_cons; [exact E|].
        apply IH; assumption.
      * intros Hall. f_equal. apply IH. intros r' Hr'. apply Hall. right. exact Hr'.
    + split; [lia|]. intros Hall. specialize (Hall r ltac:(left)). congruence.
Qed.

Lemma count_positive_usable reports :
  (forall r, r ∈ reports -> usable r "netIncome") ->
  count_positive reports = Ok (positive_years reports).
Proof.
  induction reports as [|r reports IH]; intros Hall; [reflexivity|].
  simpl. unfold_bind. rewrite positive_years_cons. unfold is_positive_year.
  destruct (usable_ok r "netIncome" (Hall r ltac:(left))) as [x ->].
  rewrite IH by (intros r' Hr'; apply Hall; right; exact Hr'). reflexivity.
Qed.

Lemma is_positive_year_spec r :
  is_positive_year r = true <-> exists x, get_field r "netIncome" = Ok x /\ (0 < x)%Q.
Proof.
  unfold is_positive_year. destruct (get_field r "netIncome") as [x|e].
  - rewrite Qltb_lt. split; [eauto|]. intros (x' & [= <-] & H). exact H.
  - split; [discriminate|]. intros (x & [=] & _).
Qed.

Lemma classic_usable (reports : list (gmap string scalar)) :
  (forall r, r ∈ reports -> usable r "netIncome")
  \/ (exists r, r ∈ reports /\ ~ usable r "netIncome").
Proof.
  induction reports as [|r reports [IH|(r' & Hin & Hr')]].
  - left. intros r Hr. inversion Hr.
  - unfold usable at 1. destruct (is_ok (get_field r "netIncome")) eqn:E.
    + left. intros r' [->|Hin]%elem_of_cons; [exact E | exact (IH r' Hin)].
    + right. exists r. split; [left|]. unfold usable. congruence.
  - right. exists r'. split; [right; exact Hin | exact Hr'].
Qed.

(** C7 (amended). Rule 3 fails with a no-data detail when there is no income
    history and with a years-available count when there are 1 to 9 years.
    With at least 10 years it passes exactly when each of the 10 most recent
    years has a usable, strictly positive net income.  When all ten are
    usable the detail states how many of the 10 are positive (9 of 10 when
    exactly one is not); when one is unusable the detail is the error
    message of the field extractor. *)
Theorem rule_3_positive_years (inc : Dict) :
  let reports := first_reports 10 inc in
  (years_available inc = 0%nat ->
     check_rule_3_earnings_stability inc = Ok (false, "no income statement data"))
  /\ ((0 < years_available inc < 10)%nat ->
        check_rule_3_earnings_stability inc
        = Ok (false, "need 10 years of data (only " +:+ str_nat (years_available inc)
                     +:+ " available)"))
  /\ (fewer_than 10 inc = false ->
        exists passed detail,
          check_rule_3_earnings_stability inc = Ok (passed, detail)
          /\ (passed = true <->
              forall r, r ∈ reports ->
                exists x, get_field r "netIncome" = Ok x /\ (0 < x)%Q)
          /\ ((forall r, r ∈ reports -> usable r "netIncome") ->
                detail = "positive earnings " +:+ str_nat (positive_years reports)
                         +:+ "/10 years"
                /\ (positive_years reports = 9%nat ->
                      passed = false /\ detail = "positive earnings 9/10 years"))
          /\ ((exists r, r ∈ reports /\ ~ usable r "netIncome") ->
                passed = false /\ exists msg, detail = "error (" +:+ msg +:+ ")")).
Proof.
  intros reports. unfold check_rule_3_earnings_stability, years_available, fewer_than.
  subst reports. unfold first_reports.
  destruct (annualReports inc) as [all_reports|]; simpl default;
    [|split; [reflexivity|]; split; [simpl; lia | discriminate]].
  split; [|split].
  - intros H. destruct all_reports; [reflexivity | discriminate].
  - intros H. destruct all_reports as [|r0 rest]; [simpl in H; lia|].
    unfold Config.MIN_EARNINGS_YEARS. rewrite length_take.
    rewrite Nat.min_r by lia.
    destruct (Nat.ltb_spec (length (r0 :: rest)) 10) as [_|Hge]; [reflexivity | lia].
  - intros Hlen. apply Nat.ltb_ge in Hlen.
    destruct all_reports as [|r0 rest]; [simpl in Hlen; lia|].
    unfold Config.MIN_EARNINGS_YEARS.
    set (reports := take 10 (r0 :: rest)).
    assert (Hten : length reports = 10%nat).
    { unfold reports. rewrite length_take. lia. }
    rewrite Hten. change (10 <? 10)%nat with false. cbv iota. unfold_bind.
    destruct (classic_usable reports) as [Hall|Hsome].
    + rewrite (count_positive_usable reports Hall). simpl try_except.
      eexists _, _. split; [reflexivity|]. split; [|split].
      * rewrite Nat.eqb_eq, <- Hten, positive_years_all.
        split; intros H r Hr; apply is_positive_year_spec, H, Hr.
      * intros _. split; [reflexivity|]. intros ->. split; reflexivity.
      * intros (r & Hr & Hnot). exfalso. exact (Hnot (Hall r Hr)).
    + destruct Hsome as (r & Hr & Hnot).
      destruct (count_positive_raises reports r Hr Hnot) as [e ->]. simpl.
      eexists _, _. split; [reflexivity|]. split; [|split].
      * split; [discriminate|]. intros H. exfalso. apply Hnot.
        destruct (H r Hr) as (x & Hx & _). unfold usable. rewrite Hx. reflexivity.
      * intros Hall. exfalso. exact (Hnot (Hall r Hr)).
      * intros _. split; [reflexivity|]. eauto.
Qed.

End StabilityProperties.

(** ** Rule 2: financial condition *)

Section ConditionProperties.
Context {RT : PyRuntime}.

(** The sector is ['utilities'] up to case. *)
Lemma sector_lower_utilities ov :
  sector_lower ov = Ok "utilities" <->
  exists s, fields ov !! "Sector" = Some (SStr s) /\ lower s = "utilities".
Proof.
  unfold sector_lower. destruct (fields ov !! "Sector") as [[|s|z|q]|]; simpl.
  - split; [discriminate | intros (s & [=] & _)].
  - split; [intros [= H]; eauto | intros (s' & [= <-] & ->); reflexivity].
  - split; [discriminate | intros (s & [=] & _)].
  - split; [discriminate | intros (s & [=] & _)].
  - split; [discriminate | intros (s & [=] & _)].
Qed.


(** *** Interest coverage is informational *)







End ConditionProperties.

(** ** Rules 5 and 6: how the EPS values are paired *)

Section PairingProperties.
Context {RT : PyRuntime}.

Lemma get_field_ext (r r' : gmap string scalar) field :
  r !! field = r' !! field -> get_field r field = get_field r' field.
Proof. unfold get_field. intros ->. reflexivity. Qed.









End PairingProperties.

(** ** The model on the sample data *)

Example sample_rules :
  @check_rule_1_size Reference.runtime Samples.overview
  = Ok (true, "market cap $150.00B")
  /\ @check_rule_3_earnings_stability Reference.runtime Samples.income_statement
     = Ok (true, "positive earnings 10/10 years")
  /\ @check_rule_3_earnings_stability Reference.runtime Samples.income_with_loss
     = Ok (false, "positive earnings 9/10 years")
  /\ @check_rule_4_dividend_record Reference.runtime Samples.overview Samples.twenty_years
     = Ok (true, "dividend yield 4.50%, 20 consecutive years")
  /\ @check_rule_4_dividend_record Reference.runtime Samples.overview Samples.interrupted
     = Ok (false, "only 3 consecutive years (< 20)")
  /\ @check_rule_7_price_to_book Reference.runtime Samples.overview
     = Ok (true, "P/B 1.20").
Proof. vm_compute. repeat split. Qed.

Example sample_rule_2 :
  @check_rule_2_financial_condition Reference.runtime
    Samples.balance_sheet Samples.income_statement Samples.overview
  = Ok (true, "current ratio 3.00, long-term debt $0.0M, working capital $0.0M, "
              +:+ "7-yr interest coverage: [20.00, 20.00, 20.00, 20.00, 20.00, 20.00, 20.00]").
Proof. vm_compute. reflexivity. Qed.

Example sample_rule_6 :
  @check_rule_6_pe_ratio Reference.runtime
    Samples.overview Samples.income_statement Samples.balance_sheet
  = Ok (true, "price/avg earnings 10.00 (price $14.00, 3-yr avg EPS $1.40), "
              +:+ "3-yr EPS [$1.40, $1.30, $1.50]").
Proof. vm_compute. reflexivity. Qed.

Example sample_rule_5 :
  @check_rule_5_earnings_growth Reference.runtime
    Samples.income_statement Samples.balance_sheet
  = Ok (true, "EPS growth 40.0% (3-yr avg $1.00 → $1.40), "
              +:+ "beginning 3-yr EPS [$1.00, $1.00, $1.00], "
              +:+ "ending 3-yr EPS [$1.40, $1.30, $1.50]").
Proof. vm_compute. reflexivity. Qed.

(** ** The theorems at the sample data *)

Lemma evaluators_never_raise_witness :
  @rule_3_data_missing Reference.runtime Samples.income_with_gap
  /\ @fails (@check_rule_3_earnings_stability Reference.runtime Samples.income_with_gap).
Proof.
  assert (H : @rule_3_data_missing Reference.runtime Samples.income_with_gap).
  { right. exists (Samples.income_report "2019" "None"). split.
    - apply list_elem_of_lookup. exists 4%nat. reflexivity.
    - unfold usable. vm_compute. discriminate. }
  split; [exact H|].
  exact (proj2 (proj1 (proj2 (proj2 (@evaluators_never_raise Reference.runtime)))
                  Samples.income_with_gap) H).
Defined.

Lemma evaluate_stock_tally_witness :
  exists results client' w',
    @evaluate_stock Reference.runtime "IBM" false (init "demo" None) Samples.market_world
    = (Some results, client', w')
    /\ total_passed results = 7%nat
    /\ (passes_all results = true <-> total_passed results = 7%nat).
Proof.
  destruct (@evaluate_stock Reference.runtime "IBM" false (init "demo" None)
              Samples.market_world) as [[[results|] client'] w'] eqn:E.
  - exists results, client', w'. split; [reflexivity|].
    destruct (@evaluate_stock_tally Reference.runtime _ _ _ _ _ _ _ E)
      as (ov & inc & bs & dv & o1 & o2 & o3 & o4 & o5 & o6 & o7 & H).
    destruct H as (_ & _ & _ & _ & _ & _ & _ & _ & _ & _ & Hiff).
    split; [|exact Hiff].
    vm_compute in E. injection E as <- _ _. reflexivity.
  - exfalso. vm_compute in E. discriminate E.
Defined.




Lemma rule_4_consecutive_years_witness :
  exists detail,
    @check_rule_4_dividend_record Reference.runtime Samples.overview Samples.interrupted
    = Ok (false, detail).
Proof.
  pose proof (@rule_4_consecutive_years Reference.runtime
                Samples.overview Samples.interrupted (9 # 200)%Q) as H.
  destruct H as (_ & _ & _ & _ & _ & _ & H & _); [vm_compute; reflexivity|].
  destruct H as [_ H]; [|exact H].
  apply set_eq. intros y.
  rewrite (@elem_of_years_with_dividends Reference.runtime).
  split.
  - intros (r & Hin & Hy). simpl in Hin.
    repeat (apply elem_of_cons in Hin as [->|Hin];
            [vm_compute in Hy; injection Hy as <-; set_solver|]).
    inversion Hin.
  - intros Hy.
    assert (Hc : (y = 2023 \/ y = 2022 \/ y = 2021 \/ y = 2019)%Z) by set_solver.
    exists (Samples.dividend_on y). split.
    + destruct Hc as [-> | [-> | [-> | ->]]]; simpl; set_solver.
    + destruct Hc as [-> | [-> | [-> | ->]]]; vm_compute; reflexivity.
Defined.

(** C6, as stated, fails when the overview has no usable dividend yield: the
    dividend history has 20 consecutive years, yet the rule does not pass. *)
Lemma rule_4_missing_yield_counterexample :
  let years := @years_with_dividends Reference.runtime
                 (default [] (data Samples.twenty_years)) in
  count_consecutive (sorted_desc years) = 20%nat
  /\ @check_rule_4_dividend_record Reference.runtime
       Samples.overview_without_yield Samples.twenty_years
     = Ok (false, "error (DividendYield N/A)").
Proof. vm_compute. split; reflexivity. Defined.

Lemma rule_3_positive_years_witness :
  @check_rule_3_earnings_stability Reference.runtime Samples.income_with_loss
  = Ok (false, "positive earnings 9/10 years").
Proof.
  destruct (proj2 (proj2 (@rule_3_positive_years Reference.runtime Samples.income_with_loss)))
    as (passed & detail & Hrun & _ & Hall & _); [reflexivity|].
  destruct Hall as [_ H9].
  - intros r Hr. simpl in Hr.
    repeat (apply elem_of_cons in Hr as [->|Hr]; [vm_compute; reflexivity|]).
    inversion Hr.
  - destruct H9 as [-> ->]; [vm_compute; reflexivity|]. exact Hrun.
Defined.

(** C7, as stated, fails on a 10-year series with one unusable year: the
    detail is the extractor's error, not a count of positive years; and with
    no history at all the detail carries no years-available count. *)
Lemma rule_3_unusable_year_counterexample :
  @fewer_than 10 Samples.income_with_gap = false
  /\ @check_rule_3_earnings_stability Reference.runtime Samples.income_with_gap
     = Ok (false, "error (netIncome N/A)")
  /\ (forall n, "error (netIncome N/A)" <> "positive earnings " +:+ str_nat n +:+ "/10 years")
  /\ @check_rule_3_earnings_stability Reference.runtime empty_dict
     = Ok (false, "no income statement data").
Proof.
  split; [reflexivity|]. split; [vm_compute; reflexivity|].
  split; [intros n; discriminate | reflexivity].
Defined.



(** * Further properties of the code *)

(** ** The field extractor *)

Section ExtractorProperties.
Context {RT : PyRuntime}.


End ExtractorProperties.

(** ** The client *)

Section MoreClientProperties.
Context {RT : PyRuntime}.

Lemma rate_limit_keeps self w :
  api_key (_rate_limit self w).1 = api_key self
  /\ network (_rate_limit self w).2 = network w
  /\ dispatched (_rate_limit self w).2 = dispatched w
  /\ stdout (_rate_limit self w).2 = stdout w.
Proof.
  unfold _rate_limit. destruct (Qltb _ _); simpl; auto.
Qed.


(** X3. Below the ceiling every fetch is one attempt, whatever the provider
    answers: exactly one request is dispatched, at the instant the client
    records as [last_call_time], carrying the operation's function name, the
    symbol and the client's API key and nothing else, and the daily count
    grows by one. *)
Theorem fetch_is_one_attempt (op : Fetch) (symbol : string)
    (self : AlphaVantageClient) (w : World) :
  (daily_calls self < max_daily_calls self)%Z ->
  exists r self' w' params,
    fetch op symbol self w = (r, self', w')
    /\ daily_calls self' = (daily_calls self + 1)%Z
    /\ dispatched w' = (last_call_time self', params) :: dispatched w
    /\ params !! "function" = Some (function_name op)
    /\ params !! "symbol" = Some symbol
    /\ params !! "apikey" = Some (api_key self)
    /\ dom params = {["function"; "symbol"; "apikey"]}.
Proof.
  intros Hlt.
  assert (Hf : fetch op symbol self w
               = _make_request (request_params (function_name op) symbol) self w)
    by (destruct op; reflexivity).
  rewrite Hf. unfold _make_request.
  apply Z.leb_gt in Hlt as Hb. rewrite Hb.
  pose proof (rate_limit_waits self w) as Hw. cbv zeta in Hw.
  destruct (rate_limit_keeps self w) as (Hk & Hn & Hd & _).
  assert (Hc : daily_calls (_rate_limit self w).1 = (daily_calls self + 1)%Z)
    by reflexivity.
  destruct (_rate_limit self w) as [self1 w1]. simpl in Hk, Hn, Hd, Hc.
  destruct Hw as (Hlast & _).
  unfold requests_get. rewrite Hk, Hd.
  destruct (network w1 _ _) as [latency reply].
  set (params := <["apikey" := api_key self]> (request_params (function_name op) symbol)).
  assert (Hp : params !! "function" = Some (function_name op)
               /\ params !! "symbol" = Some symbol
               /\ params !! "apikey" = Some (api_key self)
               /\ dom params = {["function"; "symbol"; "apikey"]}).
  { unfold params, request_params. split; [|split; [|split]].
    - rewrite lookup_insert_ne by discriminate.
      rewrite lookup_insert_ne by discriminate. apply lookup_insert_eq.
    - rewrite lookup_insert_ne by discriminate. apply lookup_insert_eq.
    - apply lookup_insert_eq.
    - rewrite !dom_insert_L, dom_empty_L. set_solver. }
  destruct Hp as (Hp1 & Hp2 & Hp3 & Hp4).
  destruct reply as [msg|status [msg|body]];
    [| destruct (negb (status =? 200)%Z)
     | destruct (negb (status =? 200)%Z); [|destruct (fields body !! "Information")]];
    eexists _, _, _, params; (split; [reflexivity|]);
    simpl; rewrite Hlast; repeat split; assumption.
Qed.


Lemma make_request_sleeps params self w r self1 w1 :
  (forall n p, 0 <= (network w n p).1)%Q ->
  (last_call_time self <= clock w)%Q ->
  _make_request params self w = (r, self1, w1) ->
  network w1 = network w
  /\ (last_call_time self1 <= clock w1)%Q
  /\ (clock w <= clock w1)%Q
  /\ min_delay self1 = min_delay self
  /\ (length (dispatched w) <= length (dispatched w1))%nat
  /\ (slept w1 = slept w
      \/ exists d, slept w1 = d :: slept w
                   /\ (0 < d)%Q /\ (d <= min_delay self)%Q
                   /\ length (dispatched w1) = S (length (dispatched w))).
Proof.
  intros Hnet Hlast. unfold _make_request.
  destruct (max_daily_calls self <=? daily_calls self)%Z.
  { intros [= <- <- <-]. simpl. repeat split; auto; lra. }
  unfold _rate_limit.
  set (elapsed := (clock w - last_call_time self)%Q).
  set (w0 := if Qltb elapsed (min_delay self)
             then time_sleep (min_delay self - elapsed)%Q w else w).
  assert (H0 : network w0 = network w /\ dispatched w0 = dispatched w
               /\ (clock w <= clock w0)%Q
               /\ (slept w0 = slept w
                   \/ exists d, slept w0 = d :: slept w
                                /\ (0 < d)%Q /\ (d <= min_delay self)%Q)).
  { unfold w0. destruct (Qltb elapsed (min_delay self)) eqn:E; simpl.
    - apply Qltb_lt in E. unfold elapsed in *. repeat split; try lra.
      right. eexists. split; [reflexivity|]. split; lra.
    - repeat split; auto; lra. }
  destruct H0 as (Hn0 & Hd0 & Hc0 & Hs0).
  unfold requests_get.
  pose proof (Hnet (length (dispatched w0))
                   (<["apikey" := api_key self]> params)) as Hlat.
  rewrite <- Hn0 in Hlat.
  cbn [api_key].
  destruct (network w0 _ _) as [latency reply]. simpl in Hlat.
  assert (Hgoal : forall w',
    network w' = network w0 ->
    clock w' = (clock w0 + latency)%Q ->
    dispatched w' = (clock w0, <["apikey" := api_key self]> params) :: dispatched w0 ->
    slept w' = slept w0 ->
    forall self',
    last_call_time self' = clock w0 -> min_delay self' = min_delay self ->
    network w' = network w
    /\ (last_call_time self' <= clock w')%Q
    /\ (clock w <= clock w')%Q
    /\ min_delay self' = min_delay self
    /\ (length (dispatched w) <= length (dispatched w'))%nat
    /\ (slept w' = slept w
        \/ exists d, slept w' = d :: slept w
                     /\ (0 < d)%Q /\ (d <= min_delay self)%Q
                     /\ length (dispatched w') = S (length (dispatched w)))).
  { intros w' Hn Hc Hd Hs self' Hl Hm.
    rewrite Hn, Hc, Hd, Hs, Hl, Hn0, Hd0. simpl. repeat split; try lra; auto.
    destruct Hs0 as [Hs0|(d & Hs0 & Hpos & Hle)]; [left; exact Hs0|].
    right. exists d. auto. }
  destruct reply as [msg|status [msg|body]];
    [| destruct (negb (status =? 200)%Z)
     | destruct (negb (status =? 200)%Z); [|destruct (fields body !! "Information")]];
    intros [= <- <- <-]; apply Hgoal; reflexivity.
Qed.

(** X5. On a clock that is not behind the client's last recorded call and a
    network whose replies take no negative time, the throttle never sleeps
    for a non-positive time nor for longer than [min_delay], it sleeps at
    most once per dispatched request, and the clock never goes back. *)
Theorem sleeps_are_bounded (ops : list (Fetch * string))
    (self self' : AlphaVantageClient) (w w' : World) :
  (forall n p, 0 <= (network w n p).1)%Q ->
  (last_call_time self <= clock w)%Q ->
  run_fetches ops self w = (self', w') ->
  exists new,
    slept w' = (new ++ slept w)%list
    /\ Forall (fun d => (0 < d)%Q /\ (d <= min_delay self)%Q) new
    /\ (length new + length (dispatched w) <= length (dispatched w'))%nat
    /\ (clock w <= clock w')%Q.
Proof.
  revert self w.
  induction ops as [|[op symbol] ops IH]; intros self w Hnet Hlast; simpl.
  - intros [= <- <-]. exists []. repeat split; [constructor | simpl; lia | lra].
  - destruct (fetch_make_request op symbol) as [params ->].
    destruct (_make_request params self w) as [[r self1] w1] eqn:E1.
    destruct (make_request_sleeps _ _ _ _ _ _ Hnet Hlast E1)
      as (Hn & Hl1 & Hc & Hm & Hd & Hs).
    intros Hrun.
    assert (Hnet1 : forall n p, (0 <= (network w1 n p).1)%Q)
      by (rewrite Hn; exact Hnet).
    destruct (IH self1 w1 Hnet1 Hl1 Hrun) as (new & Hs' & Hall & Hlen & Hc').
    rewrite Hm in Hall.
    destruct Hs as [Hs|(d & Hs & Hpos & Hle & Hd1)].
    + exists new. rewrite Hs in Hs'. repeat split; auto; [lia | lra].
    + exists (new ++ [d])%list. rewrite Hs in Hs'. repeat split.
      * rewrite <- app_assoc. exact Hs'.
      * apply Forall_app. split; [exact Hall|]. constructor; [auto | constructor].
      * rewrite length_app. simpl. lia.
      * lra.
Qed.

End MoreClientProperties.

(** ** The aggregator *)

Section MoreAggregatorProperties.
Context {RT : PyRuntime}.

Lemma resolved_truthy ov :
  dict_truthy ov && truthy (default SNone (fields ov !! "Symbol")) = true
  <-> resolved (Some ov).
Proof.
  unfold resolved. split.
  - intros [_ H]%andb_true_iff. exists ov. auto.
  - intros (ov' & [= <-] & H). apply andb_true_iff. split; [|exact H].
    unfold dict_truthy. destruct (bool_decide (fields ov = ∅)) eqn:E; [|reflexivity].
    apply bool_decide_eq_true in E. rewrite E, lookup_empty in H. discriminate.
Qed.

Lemma run_rules_ok ov inc bs dv : exists rules, run_rules ov inc bs dv = Ok rules.
Proof.
  unfold run_rules. unfold_bind.
  destruct (check_rule_1_reports ov) as (p1 & d1 & -> & _).
  destruct (check_rule_2_reports (or_empty bs) (or_empty inc) ov) as (p2 & d2 & -> & _).
  destruct (check_rule_3_reports (or_empty inc)) as (p3 & d3 & -> & _).
  destruct (check_rule_4_reports ov (or_empty dv)) as (p4 & d4 & -> & _).
  destruct (check_rule_5_reports (or_empty inc) (or_empty bs)) as (p5 & d5 & -> & _).
  destruct (check_rule_6_reports ov (or_empty inc) (or_empty bs)) as (p6 & d6 & -> & _).
  destruct (check_rule_7_reports ov) as (p7 & d7 & -> & _).
  eauto.
Qed.

(** X6. [evaluate_stock] returns a result exactly when the overview fetch
    produced a dataset with a non-empty ['Symbol']: no rule can make it
    return [None].  Otherwise it returns [None] straight after the overview
    fetch, without attempting the other three. *)
Theorem evaluate_stock_needs_overview (symbol : string)
    (client c1 : AlphaVantageClient) (w w1 : World) (overview : option Dict) :
  get_overview symbol client w = (overview, c1, w1) ->
  (resolved overview ->
     exists results c' w', evaluate_stock symbol false client w = (Some results, c', w'))
  /\ (~ resolved overview -> evaluate_stock symbol false client w = (None, c1, w1)).
Proof.
  intros Hov. unfold evaluate_stock. cbv iota. rewrite Hov. split.
  - intros Hres. destruct Hres as (ov & -> & Hsym).
    assert (Ht : dict_truthy ov && truthy (default SNone (fields ov !! "Symbol")) = true)
      by (apply resolved_truthy; exists ov; auto).
    rewrite Ht.
    destruct (get_income_statement symbol c1 w1) as [[inc c2] w2].
    destruct (get_balance_sheet symbol c2 w2) as [[bs c3] w3].
    destruct (get_dividends symbol c3 w3) as [[dv c4] w4].
    destruct (run_rules_ok ov inc bs dv) as [rules ->]. eauto.
  - intros Hres. destruct overview as [ov|]; [|reflexivity].
    destruct (dict_truthy ov && _) eqn:Ht; [|reflexivity].
    exfalso. apply Hres, resolved_truthy, Ht.
Qed.

Lemma same_but_stdout_refl w : same_but_stdout w w.
Proof. repeat split. Qed.

Lemma same_but_stdout_trans w1 w2 w3 :
  same_but_stdout w1 w2 -> same_but_stdout w2 w3 -> same_but_stdout w1 w3.
Proof.
  intros (A1 & A2 & A3 & A4) (B1 & B2 & B3 & B4).
  repeat split; congruence.
Qed.

Lemma same_but_stdout_sym w1 w2 : same_but_stdout w1 w2 -> same_but_stdout w2 w1.
Proof. intros (A1 & A2 & A3 & A4). repeat split; congruence. Qed.

Lemma print_keeps text w : same_but_stdout w (print text w).
Proof. repeat split. Qed.

Lemma trace_rules_keeps (results : Results) (l : list (string * string)) : forall w0,
  same_but_stdout w0
    (fold_left (fun w '(rule_name, detail) =>
                  let symbol := if bool_decide (rule_name ∈ rules_passed results)
                                then "✓" else "✗" in
                  print ("  " +:+ symbol +:+ " " +:+ rule_name +:+ ": " +:+ detail +:+ nl) w)
               l w0).
Proof.
  induction l as [|[name detail] l IH]; intros w0; [apply same_but_stdout_refl|].
  simpl. eapply same_but_stdout_trans; [|apply IH]. apply print_keeps.
Qed.

Lemma trace_results_keeps results w : same_but_stdout w (trace_results results w).
Proof.
  unfold trace_results. cbv zeta.
  eapply same_but_stdout_trans; [apply print_keeps|].
  eapply same_but_stdout_trans; [apply (trace_rules_keeps results)|].
  apply print_keeps.
Qed.

(** What is printed so far has no influence on a request. *)
Lemma make_request_stdout params self w wp :
  same_but_stdout w wp ->
  (_make_request params self w).1 = (_make_request params self wp).1
  /\ same_but_stdout (_make_request params self w).2 (_make_request params self wp).2.
Proof.
  destruct w as [c n d sl o], wp as [c' n' d' sl' o'].
  intros (H1 & H2 & H3 & H4). simpl in *. subst c' n' d' sl'.
  unfold _make_request.
  destruct (max_daily_calls self <=? daily_calls self)%Z; [simpl; repeat split|].
  unfold _rate_limit. simpl clock.
  destruct (Qltb (c - last_call_time self) (min_delay self));
    unfold requests_get, time_sleep; simpl;
    destruct (n (length d) _) as [latency reply];
    (destruct reply as [msg|status [msg|body]];
     [| destruct (negb (status =? 200)%Z)
      | destruct (negb (status =? 200)%Z); [|destruct (fields body !! "Information")]]);
    simpl; repeat split.
Qed.

Lemma fetch_stdout op symbol self w wp :
  same_but_stdout w wp ->
  (fetch op symbol self w).1 = (fetch op symbol self wp).1
  /\ same_but_stdout (fetch op symbol self w).2 (fetch op symbol self wp).2.
Proof.
  destruct (fetch_make_request op symbol) as [params H]. rewrite !H.
  apply make_request_stdout.
Qed.

(** X7. The [verbose] flag only adds printed lines: with and without it
    [evaluate_stock] returns the same result and leaves the client in the
    same state, and the two final worlds agree on the clock, the dispatched
    requests and the sleeps. *)
Theorem verbose_only_prints (symbol : string) (client : AlphaVantageClient) (w : World) :
  (evaluate_stock symbol true client w).1 = (evaluate_stock symbol false client w).1
  /\ same_but_stdout (evaluate_stock symbol true client w).2
                     (evaluate_stock symbol false client w).2.
Proof.
  unfold evaluate_stock. cbv iota.
  set (w0 := print _ w).
  assert (H0 : same_but_stdout w0 w) by (apply same_but_stdout_sym, print_keeps).
  destruct (fetch_stdout Overview symbol client w0 w H0) as [E1 S1].
  change (fetch Overview symbol client) with (get_overview symbol client) in E1, S1.
  destruct (get_overview symbol client w0) as [[ov c1] w1].
  destruct (get_overview symbol client w) as [[ov' c1'] w1'].
  simpl in E1, S1. injection E1 as <- <-.
  destruct ov as [ov|];
    [|simpl; split; [reflexivity|];
      eapply same_but_stdout_trans; [apply same_but_stdout_sym, print_keeps | exact S1]].
  destruct (dict_truthy ov && _);
    [|simpl; split; [reflexivity|];
      eapply same_but_stdout_trans; [apply same_but_stdout_sym, print_keeps | exact S1]].
  destruct (fetch_stdout IncomeStatement symbol c1 w1 w1' S1) as [E2 S2].
  change (fetch IncomeStatement symbol c1) with (get_income_statement symbol c1) in E2, S2.
  destruct (get_income_statement symbol c1 w1) as [[inc c2] w2].
  destruct (get_income_statement symbol c1 w1') as [[inc' c2'] w2'].
  simpl in E2, S2. injection E2 as <- <-.
  destruct (fetch_stdout BalanceSheet symbol c2 w2 w2' S2) as [E3 S3].
  change (fetch BalanceSheet symbol c2) with (get_balance_sheet symbol c2) in E3, S3.
  destruct (get_balance_sheet symbol c2 w2) as [[bs c3] w3].
  destruct (get_balance_sheet symbol c2 w2') as [[bs' c3'] w3'].
  simpl in E3, S3. injection E3 as <- <-.
  destruct (fetch_stdout Dividends symbol c3 w3 w3' S3) as [E4 S4].
  change (fetch Dividends symbol c3) with (get_dividends symbol c3) in E4, S4.
  destruct (get_dividends symbol c3 w3) as [[dv c4] w4].
  destruct (get_dividends symbol c3 w3') as [[dv' c4'] w4'].
  simpl in E4, S4. injection E4 as <- <-.
  destruct (run_rules ov inc bs dv) as [rules|e]; simpl; (split; [reflexivity|]).
  - eapply same_but_stdout_trans; [apply same_but_stdout_sym, trace_results_keeps|].
    exact S4.
  - eapply same_but_stdout_trans; [apply same_but_stdout_sym, print_keeps | exact S4].
Qed.

(** One request, as far as the counters and the length of the dispatch log
    are concerned. *)
Lemma make_request_step params self w r self' w' :
  _make_request params self w = (r, self', w') ->
  max_daily_calls self' = max_daily_calls self
  /\ ((max_daily_calls self <= daily_calls self)%Z /\ r = None
      /\ daily_calls self' = daily_calls self
      /\ length (dispatched w') = length (dispatched w)
      \/ (daily_calls self < max_daily_calls self)%Z
         /\ daily_calls self' = (daily_calls self + 1)%Z
         /\ length (dispatched w') = S (length (dispatched w))).
Proof.
  intros H. pose proof (make_request_cases _ _ _ _ _ _ H) as (Hmax & _ & _ & Hcase).
  split; [exact Hmax|].
  destruct Hcase as [(Hex & -> & Hl) | (Hlt & Hd & _ & p & Hl)].
  - left. destruct (make_request_exhausted params self w Hex) as [text Ht].
    rewrite Ht in H. injection H as <- _. rewrite Hl. auto.
  - right. rewrite Hl. auto.
Qed.


Lemma fold_record_rule_failed rules : forall r0,
  rules_failed (fold_left record_rule rules r0)
  = (rules_failed r0 ++ (filter (fun r => ~ r.2.1 = true) rules).*1)%list.
Proof.
  induction rules as [|[name [passed detail]] rules IH]; intros r0; simpl.
  - rewrite app_nil_r. reflexivity.
  - rewrite IH. simpl. destruct passed.
    + rewrite filter_cons_False by (simpl; tauto). reflexivity.
    + rewrite filter_cons_True by (simpl; congruence). simpl.
      rewrite <- app_assoc. reflexivity.
Qed.

(** What a successful evaluation has done. *)
Lemma evaluate_stock_some symbol verbose client w results c' w' :
  evaluate_stock symbol verbose client w = (Some results, c', w') ->
  exists ov inc bs dv rules w0 c1 w1 c2 w2 c3 w3 w4,
    dispatched w0 = dispatched w
    /\ get_overview symbol client w0 = (Some ov, c1, w1)
    /\ get_income_statement symbol c1 w1 = (inc, c2, w2)
    /\ get_balance_sheet symbol c2 w2 = (bs, c3, w3)
    /\ get_dividends symbol c3 w3 = (dv, c', w4)
    /\ dispatched w' = dispatched w4
    /\ run_rules ov inc bs dv = Ok rules
    /\ results = fold_results symbol ov rules.
Proof.
  unfold evaluate_stock. cbv iota.
  set (w0 := if verbose then _ else w).
  assert (H0 : dispatched w0 = dispatched w) by (unfold w0; destruct verbose; reflexivity).
  destruct (get_overview symbol client w0) as [[[ov|] c1] w1] eqn:E1; [|discriminate].
  destruct (dict_truthy ov && _); [|discriminate].
  destruct (get_income_statement symbol c1 w1) as [[inc c2] w2] eqn:E2.
  destruct (get_balance_sheet symbol c2 w2) as [[bs c3] w3] eqn:E3.
  destruct (get_dividends symbol c3 w3) as [[dv c4] w4] eqn:E4.
  destruct (run_rules ov inc bs dv) as [rules|] eqn:E5; [|discriminate].
  intros [= <- <- <-].
  exists ov, inc, bs, dv, rules, w0, c1, w1, c2, w2, c3, w3, w4.
  repeat (split; [first [assumption | reflexivity]|]).
  split; [|split; [assumption | reflexivity]].
  destruct verbose; [|reflexivity].
  destruct (trace_results_keeps (fold_results symbol ov rules) w4) as (_ & _ & Hd & _).
  symmetry. exact Hd.
Qed.

(** X9. In every result the passed and the failed rule names together are
    the seven rule names, each exactly once; [total_passed] and the number
    of failed rules add up to 7, and [passes_all] holds exactly when no rule
    is listed as failed. *)
Theorem results_partition (symbol : string) (verbose : bool)
    (client c' : AlphaVantageClient) (w w' : World) (results : Results) :
  evaluate_stock symbol verbose client w = (Some results, c', w') ->
  (rules_passed results ++ rules_failed results)%list ≡ₚ rule_names
  /\ NoDup (rules_passed results ++ rules_failed results)%list
  /\ (total_passed results + length (rules_failed results) = 7)%nat
  /\ (passes_all results = true <-> rules_failed results = []).
Proof.
  intros H.
  apply evaluate_stock_some in H
    as (ov & inc & bs & dv & rules & w0 & c1 & w1 & c2 & w2 & c3 & w3 & w4
        & _ & _ & _ & _ & _ & _ & Hr & ->).
  apply run_rules_inv in Hr
    as (o1 & o2 & o3 & o4 & o5 & o6 & o7 & _ & _ & _ & _ & _ & _ & _ & ->).
  set (rules := zip rule_names [o1; o2; o3; o4; o5; o6; o7]).
  assert (Hp : rules_passed (fold_results symbol ov rules)
               = (filter (fun r => r.2.1 = true) rules).*1).
  { unfold fold_results. cbn [rules_passed]. rewrite fold_record_rule_passed. reflexivity. }
  assert (Hf : rules_failed (fold_results symbol ov rules)
               = (filter (fun r => ~ r.2.1 = true) rules).*1).
  { unfold fold_results. cbn [rules_failed]. rewrite fold_record_rule_failed. reflexivity. }
  assert (Hnames : rules.*1 = rule_names).
  { unfold rules. apply fst_zip. simpl. lia. }
  assert (Hperm : (rules_passed (fold_results symbol ov rules)
                   ++ rules_failed (fold_results symbol ov rules))%list ≡ₚ rule_names).
  { rewrite Hp, Hf, <- fmap_app, <- Hnames.
    apply fmap_Permutation, filter_app_complement. }
  assert (Hlen : (length (rules_passed (fold_results symbol ov rules))
                  + length (rules_failed (fold_results symbol ov rules)) = 7)%nat).
  { rewrite <- length_app, Hperm. reflexivity. }
  split; [exact Hperm|]. split; [|split].
  - rewrite Hperm. apply (bool_decide_eq_true_1 (NoDup rule_names)).
    vm_compute. reflexivity.
  - exact Hlen.
  - change (passes_all (fold_results symbol ov rules))
      with (length (rules_passed (fold_results symbol ov rules)) =? 7)%nat.
    rewrite Nat.eqb_eq. split.
    + intros H7. apply length_zero_iff_nil. lia.
    + intros Hnil. rewrite Hnil, Nat.add_0_r in Hlen. exact Hlen.
Qed.

Lemma failed_rule_listed symbol ov (rules : list (string * (bool * string))) name detail :
  (name, (false, detail)) ∈ rules ->
  name ∈ rules_failed (fold_results symbol ov rules).
Proof.
  intros Hin. unfold fold_results. cbn [rules_failed].
  rewrite fold_record_rule_failed. simpl.
  apply list_elem_of_fmap. exists (name, (false, detail)). split; [reflexivity|].
  apply list_elem_of_filter. split; [simpl; congruence | exact Hin].
Qed.

(** X10. When at most one call is left of the daily ceiling, an evaluation
    that returns a result has only fetched the overview: the income
    statement, the balance sheet and the dividends are unavailable, so
    rules 2 to 6 are listed as failed, at most two rules pass and
    [passes_all] is false. *)
Theorem last_call_evaluation (symbol : string) (verbose : bool)
    (client c' : AlphaVantageClient) (w w' : World) (results : Results) :
  (max_daily_calls client <= daily_calls client + 1)%Z ->
  evaluate_stock symbol verbose client w = (Some results, c', w') ->
  (forall name,
     name ∈ ["Rule 2 (strong financial condition)"; "Rule 3 (earnings stability)";
             "Rule 4 (dividend record)"; "Rule 5 (earnings growth)";
             "Rule 6 (moderate P/E)"] ->
     name ∈ rules_failed results)
  /\ (total_passed results <= 2)%nat
  /\ passes_all results = false
  /\ length (dispatched w') = S (length (dispatched w)).
Proof.
  intros Hleft H.
  apply evaluate_stock_some in H
    as (ov & inc & bs & dv & rules & w0 & c1 & w1 & c2 & w2 & c3 & w3 & w4
        & H0 & E1 & E2 & E3 & E4 & Hw & Hr & ->).
  apply make_request_step in E1 as (M1 & [(_ & [=] & _)|(L1 & D1 & N1)]).
  apply make_request_step in E2 as (M2 & [(_ & -> & D2 & N2)|(L2 & _)]); [|lia].
  apply make_request_step in E3 as (M3 & [(_ & -> & D3 & N3)|(L3 & _)]); [|lia].
  apply make_request_step in E4 as (M4 & [(_ & -> & D4 & N4)|(L4 & _)]); [|lia].
  apply run_rules_inv in Hr
    as (o1 & o2 & o3 & o4 & o5 & o6 & o7 & _ & H2 & H3 & H4 & H5 & H6 & _ & ->).
  destruct (check_rule_2_missing (or_empty None) (or_empty None) ov I) as (d2 & H2' & _).
  destruct (check_rule_3_missing (or_empty None) (or_introl eq_refl)) as (d3 & H3' & _).
  destruct (check_rule_4_missing ov (or_empty None) (or_intror eq_refl)) as (d4 & H4' & _).
  destruct (check_rule_5_missing (or_empty None) (or_empty None) (or_introl eq_refl))
    as (d5 & H5' & _).
  destruct (check_rule_6_reports ov (or_empty None) (or_empty None)) as (p6 & d6 & H6' & _).
  assert (Hp6 : p6 = false).
  { revert H6'. unfold check_rule_6_pe_ratio. unfold_bind.
    destruct (get_field (fields ov) "50DayMovingAverage"); simpl; intros [= <- _];
      reflexivity. }
  subst p6.
  assert (E2' : o2 = (false, d2)) by congruence.
  assert (E3' : o3 = (false, d3)) by congruence.
  assert (E4' : o4 = (false, d4)) by congruence.
  assert (E5' : o5 = (false, d5)) by congruence.
  assert (E6' : o6 = (false, d6)) by congruence.
  subst o2 o3 o4 o5 o6.
  destruct (fold_results_tally symbol ov o1 (false, d2) (false, d3) (false, d4)
              (false, d5) (false, d6) o7) as (_ & _ & Ht & Ha).
  assert (Hc : (count_passed [o1; (false, d2); (false, d3); (false, d4); (false, d5);
                              (false, d6); o7] <= 2)%nat).
  { unfold count_passed. destruct o1 as [[|] d1], o7 as [[|] d7]; simpl; lia. }
  split; [|split; [|split]].
  - intros name Hn.
    repeat (apply elem_of_cons in Hn as [-> | Hn]);
      [eapply failed_rule_listed, (list_elem_of_lookup_2 _ 1%nat); reflexivity
      |eapply failed_rule_listed, (list_elem_of_lookup_2 _ 2%nat); reflexivity
      |eapply failed_rule_listed, (list_elem_of_lookup_2 _ 3%nat); reflexivity
      |eapply failed_rule_listed, (list_elem_of_lookup_2 _ 4%nat); reflexivity
      |eapply failed_rule_listed, (list_elem_of_lookup_2 _ 5%nat); reflexivity
      |inversion Hn].
  - rewrite Ht. exact Hc.
  - rewrite Ha. apply Nat.eqb_neq. lia.
  - rewrite Hw, N4, N3, N2, N1, H0. reflexivity.
Qed.

End MoreAggregatorProperties.


(** ** The API key of the entry point *)

(** X11. The key handed to the client is never empty and never the
    placeholder, and it is the first available of: a non-empty [--api-key]
    argument, [config.ALPHA_VANTAGE_API_KEY] when [config] can be imported,
    the environment variable.  A non-empty argument makes the configuration
    and the environment irrelevant; an importable [config] makes the
    environment irrelevant, even when its key is empty or the placeholder. *)
Theorem api_key_resolution (arg config : option string) (environ : gmap string string) :
  (forall key, main_api_key arg config environ = Some key ->
     key <> "" /\ key <> "your_api_key_here"
     /\ (arg = Some key
         \/ (arg = None \/ arg = Some "")
            /\ (config = Some key
                \/ config = None /\ environ !! "ALPHA_VANTAGE_API_KEY" = Some key)))
  /\ (forall key config' environ',
        arg = Some key -> key <> "" ->
        main_api_key arg config environ = main_api_key arg config' environ'
        /\ (main_api_key arg config environ = None <-> key = "your_api_key_here"))
  /\ (forall key environ',
        config = Some key ->
        main_api_key arg config environ = main_api_key arg config environ').
Proof.
  split; [|split].
  - intros key. unfold main_api_key.
    set (chosen := match arg with Some k => _ | None => _ end).
    destruct (validate_api_key chosen) eqn:Hv; [|discriminate].
    intros [= <-]. unfold validate_api_key in Hv.
    apply andb_true_iff in Hv as [H1 H2].
    apply negb_true_iff, String.eqb_neq in H1, H2.
    split; [exact H1|]. split; [exact H2|].
    assert (Hget : config = Some (get_api_key config environ)
                   \/ config = None
                      /\ environ !! "ALPHA_VANTAGE_API_KEY" = Some (get_api_key config environ)
                   \/ get_api_key config environ = "").
    { unfold get_api_key. destruct config as [c|]; [auto|].
      destruct (environ !! "ALPHA_VANTAGE_API_KEY"); simpl; auto. }
    unfold chosen in *. destruct arg as [k|].
    + destruct (String.eqb k "") eqn:Ek.
      * apply String.eqb_eq in Ek as ->. right. split; [auto|].
        destruct Hget as [H|[H|H]]; [auto | auto | contradiction].
      * left. reflexivity.
    + right. split; [auto|].
      destruct Hget as [H|[H|H]]; [auto | auto | contradiction].
  - intros key config' environ' -> Hne. unfold main_api_key.
    apply String.eqb_neq in Hne as Hb. rewrite Hb. split; [reflexivity|].
    unfold validate_api_key. rewrite Hb. simpl.
    destruct (String.eqb key "your_api_key_here") eqn:Ep; simpl.
    + apply String.eqb_eq in Ep. tauto.
    + apply String.eqb_neq in Ep. split; [discriminate | contradiction].
  - intros key environ' ->. reflexivity.
Qed.

(** ** Rules 1, 6 and 7: the thresholds *)

Section ThresholdProperties.
Context {RT : PyRuntime}.


(** X12. Rule 1 passes exactly when the market capitalisation is usable and
    strictly above 10 billion, Rule 7 exactly when the price-to-book ratio is
    usable and strictly below 1.5; a value equal to the threshold fails
    either rule, and an unusable value fails with an error detail. *)
Theorem size_and_price_to_book (ov : Dict) :
  (forall detail, check_rule_1_size ov = Ok (true, detail) <->
     exists market_cap,
       get_field (fields ov) "MarketCapitalization" = Ok market_cap
       /\ (10000000000 < market_cap)%Q
       /\ detail = "market cap $" +:+ format_f 2 (market_cap / 1000000000)%Q +:+ "B")
  /\ (forall detail, check_rule_7_price_to_book ov = Ok (true, detail) <->
        exists pb_ratio,
          get_field (fields ov) "PriceToBookRatio" = Ok pb_ratio
          /\ (pb_ratio < 1.5)%Q
          /\ detail = "P/B " +:+ format_f 2 pb_ratio)
  /\ (forall market_cap, get_field (fields ov) "MarketCapitalization" = Ok market_cap ->
        (market_cap == 10000000000)%Q ->
        check_rule_1_size ov
        = Ok (false, ("market cap $" +:+ format_f 2 (market_cap / 1000000000)%Q +:+ "B")
                     +:+ " (< $10B)"))
  /\ (forall pb_ratio, get_field (fields ov) "PriceToBookRatio" = Ok pb_ratio ->
        (pb_ratio == 1.5)%Q ->
        check_rule_7_price_to_book ov
        = Ok (false, ("P/B " +:+ format_f 2 pb_ratio) +:+ " (>= 1.5)")).
Proof.
  unfold check_rule_1_size, check_rule_7_price_to_book.
  split; [|split; [|split]].
  - intros detail.
    destruct (get_field (fields ov) "MarketCapitalization") as [cap|e]; simpl.
    + destruct (Qltb Config.MIN_MARKET_CAP cap) eqn:E.
      * apply Qltb_lt in E. split.
        -- intros [= <-]. exists cap. auto.
        -- intros (cap' & [= <-] & _ & ->). reflexivity.
      * apply Qltb_ge in E. split; [discriminate|].
        intros (cap' & [= <-] & Hlt & _). unfold Config.MIN_MARKET_CAP in E. lra.
    + split; [discriminate | intros (cap & [=] & _)].
  - intros detail.
    destruct (get_field (fields ov) "PriceToBookRatio") as [pb|e]; simpl.
    + destruct (Qltb pb Config.MAX_PB_RATIO) eqn:E.
      * apply Qltb_lt in E. split.
        -- intros [= <-]. exists pb. auto.
        -- intros (pb' & [= <-] & _ & ->). reflexivity.
      * apply Qltb_ge in E. split; [discriminate|].
        intros (pb' & [= <-] & Hlt & _). unfold Config.MAX_PB_RATIO in E. lra.
    + split; [discriminate | intros (pb & [=] & _)].
  - intros cap -> Heq. simpl.
    assert (E : Qltb Config.MIN_MARKET_CAP cap = false).
    { apply Qltb_ge. unfold Config.MIN_MARKET_CAP. lra. }
    rewrite E. reflexivity.
  - intros pb -> Heq. simpl.
    assert (E : Qltb pb Config.MAX_PB_RATIO = false).
    { apply Qltb_ge. unfold Config.MAX_PB_RATIO. lra. }
    rewrite E. reflexivity.
Qed.


End ThresholdProperties.

(** ** Rule 4: what it reads of the dividend history *)

Section MoreDividendProperties.
Context {RT : PyRuntime}.

Lemma rule_4_years_only ov d (l l' : list (gmap string scalar)) :
  (l = [] <-> l' = []) ->
  years_with_dividends l = years_with_dividends l' ->
  check_rule_4_dividend_record ov (with_data d l)
  = check_rule_4_dividend_record ov (with_data d l').
Proof.
  intros Hnil Hy. unfold check_rule_4_dividend_record. simpl.
  destruct l as [|r l], l' as [|r' l'].
  - reflexivity.
  - exfalso. destruct Hnil as [H _]. specialize (H eq_refl). discriminate.
  - exfalso. destruct Hnil as [_ H]. specialize (H eq_refl). discriminate.
  - rewrite Hy. reflexivity.
Qed.

Lemma years_with_dividends_cons r (l : list (gmap string scalar)) :
  years_with_dividends (r :: l)
  = match record_year r with
    | Some y => {[y]} ∪ years_with_dividends l
    | None => years_with_dividends l
    end.
Proof.
  apply set_eq. intros y. rewrite elem_of_years_with_dividends. split.
  - intros (r' & Hin & Hy). apply elem_of_cons in Hin as [-> | Hin].
    + rewrite Hy. apply elem_of_union. left. apply elem_of_singleton. reflexivity.
    + assert (H : y ∈ years_with_dividends l)
        by (apply elem_of_years_with_dividends; eauto).
      destruct (record_year r); [apply elem_of_union; right|]; exact H.
  - intros H. destruct (record_year r) as [y'|] eqn:E.
    + apply elem_of_union in H as [H|H].
      * apply elem_of_singleton in H as ->. exists r. split; [left | exact E].
      * apply elem_of_years_with_dividends in H as (r' & Hin & Hy).
        exists r'. split; [right; exact Hin | exact Hy].
    + apply elem_of_years_with_dividends in H as (r' & Hin & Hy).
      exists r'. split; [right; exact Hin | exact Hy].
Qed.

Lemma size_years_with_dividends (l : list (gmap string scalar)) :
  (size (years_with_dividends l) <= length l)%nat.
Proof.
  induction l as [|r l IH]; [reflexivity|].
  rewrite years_with_dividends_cons. simpl.
  destruct (record_year r) as [y|]; [|lia].
  rewrite size_union_alt, size_singleton.
  assert (H : (size (years_with_dividends l ∖ {[y]}) <= size (years_with_dividends l))%nat)
    by (apply subseteq_size, subseteq_difference_l; reflexivity).
  lia.
Qed.

Lemma length_sorted_desc (years : gset Z) : length (sorted_desc years) = size years.
Proof.
  unfold sorted_desc. rewrite merge_sort_Permutation. reflexivity.
Qed.

(** X14. Rule 4 reads nothing of the dividend history but the set of years
    of its valid ex-dividend dates: the order of the records is irrelevant,
    and so is a record without a valid date or with a date in a year already
    present, whatever else these records hold. *)
Theorem rule_4_reads_the_years (ov d : Dict) (records : list (gmap string scalar)) :
  (forall records',
     records ≡ₚ records' ->
     check_rule_4_dividend_record ov (with_data d records')
     = check_rule_4_dividend_record ov (with_data d records))
  /\ (forall r,
        records <> [] -> record_year r = None ->
        check_rule_4_dividend_record ov (with_data d (r :: records))
        = check_rule_4_dividend_record ov (with_data d records))
  /\ (forall r r',
        r' ∈ records -> record_year r = record_year r' ->
        check_rule_4_dividend_record ov (with_data d (r :: records))
        = check_rule_4_dividend_record ov (with_data d records)).
Proof.
  split; [|split].
  - intros records' Hp. apply rule_4_years_only.
    + split; intros ->.
      * apply Permutation_nil_r in Hp. exact Hp.
      * symmetry in Hp. apply Permutation_nil_r in Hp. exact Hp.
    + apply set_eq. intros y. rewrite !elem_of_years_with_dividends.
      split; intros (r & Hin & Hy); exists r; split; try exact Hy.
      * rewrite Hp. exact Hin.
      * rewrite <- Hp. exact Hin.
  - intros r Hne Hr. apply rule_4_years_only.
    + split; [discriminate | intros ->; contradiction].
    + rewrite years_with_dividends_cons, Hr. reflexivity.
  - intros r r' Hin Hr. apply rule_4_years_only.
    + split; [discriminate | intros ->; inversion Hin].
    + rewrite years_with_dividends_cons.
      destruct (record_year r) as [y|] eqn:E; [|reflexivity].
      assert (Hy : y ∈ years_with_dividends records).
      { apply elem_of_years_with_dividends. exists r'. split; [exact Hin | congruence]. }
      apply set_eq. intros y'. rewrite elem_of_union, elem_of_singleton.
      split; [intros [-> | H]; assumption | auto].
Qed.

(** X15. Rule 4 cannot pass on less than twenty years of history: when it
    passes, the dividend yield is usable, the history holds at least 20
    records with valid dates in at least 20 different years, and the 20
    years down from the most recent one are all among them. *)
Theorem rule_4_needs_twenty_years (ov dv : Dict) (detail : string) :
  check_rule_4_dividend_record ov dv = Ok (true, detail) ->
  let records := default [] (data dv) in
  let years := years_with_dividends records in
  usable (fields ov) "DividendYield"
  /\ (20 <= size years)%nat
  /\ (20 <= length records)%nat
  /\ exists top,
       (forall y, y ∈ years -> (y <= top)%Z)
       /\ (forall j, (j < 20)%nat -> (top - Z.of_nat j)%Z ∈ years).
Proof.
  unfold check_rule_4_dividend_record, usable.
  destruct (get_field (fields ov) "DividendYield") as [dy|e]; [|discriminate].
  unfold_bind. cbv beta iota.
  destruct (data dv) as [[|r l]|]; [discriminate| |discriminate].
  cbv zeta. simpl default.
  set (years := years_with_dividends (r :: l)).
  destruct (bool_decide (years = ∅)); [discriminate|].
  destruct (Config.MIN_DIVIDEND_YEARS <=? count_consecutive (sorted_desc years))%nat eqn:E;
    [|discriminate].
  intros _. apply Nat.leb_le in E. unfold Config.MIN_DIVIDEND_YEARS in E.
  destruct (sorted_desc years) as [|top rest] eqn:Es.
  { exfalso. unfold count_consecutive in E. simpl in E. lia. }
  assert (Htop : sorted_desc years !! 0%nat = Some top) by (rewrite Es; reflexivity).
  pose proof (count_consecutive_run (sorted_desc years) top Htop) as Hrun.
  pose proof (count_consecutive_years years top Htop) as Hyears.
  cbv zeta in Hrun, Hyears. rewrite Es in Hrun, Hyears.
  destruct Hrun as ((_ & Hlen) & _). destruct Hyears as (Hmax & Hall & _).
  assert (Hsize : (20 <= size years)%nat).
  { rewrite <- length_sorted_desc, Es. lia. }
  split; [reflexivity|]. split; [exact Hsize|]. split.
  - pose proof (size_years_with_dividends (r :: l)) as Hle. fold years in Hle. lia.
  - exists top. split; [exact Hmax|]. intros j Hj. apply Hall. lia.
Qed.

End MoreDividendProperties.

(** ** The window of reports each rule reads *)

Section WindowProperties.
Context {RT : PyRuntime}.

Lemma window_fewer_than n d (l : list (gmap string scalar)) :
  (n < length l)%nat ->
  fewer_than n (with_reports d (take n l)) = false
  /\ fewer_than n (with_reports d l) = false.
Proof.
  intros H. unfold fewer_than. simpl. rewrite length_take.
  split; apply Nat.ltb_ge; lia.
Qed.

Lemma window_first_reports n d (l : list (gmap string scalar)) :
  first_reports n (with_reports d (take n l)) = first_reports n (with_reports d l).
Proof.
  unfold first_reports. simpl. rewrite take_take, Nat.min_id. reflexivity.
Qed.

Lemma window_interest_coverage d (l : list (gmap string scalar)) :
  interest_coverage_str (with_reports d (take 7 l)) = interest_coverage_str (with_reports d l).
Proof.
  unfold interest_coverage_str, interest_coverage_list.
  destruct l as [|r l]; [reflexivity|].
  change (annualReports (with_reports d (take 7 (r :: l)))) with (Some (r :: take 6 l)).
  change (annualReports (with_reports d (r :: l))) with (Some (r :: l)).
  cbv iota. change (take 7 (r :: take 6 l)) with (r :: take 6 (take 6 l)).
  rewrite take_take, Nat.min_id. reflexivity.
Qed.

(** X16. Each rule reads a fixed window of the most recent annual reports
    and nothing older: Rule 2 the latest balance sheet and up to seven income
    reports, Rules 3 and 5 up to ten reports of each series, Rule 6 up to
    three.  Cutting every series to its window leaves the outcome and its
    detail unchanged. *)
Theorem older_reports_are_ignored (ov inc bs : Dict) (incs bals : list (gmap string scalar)) :
  check_rule_2_financial_condition (with_reports bs bals) (with_reports inc incs) ov
  = check_rule_2_financial_condition
      (with_reports bs (take 1 bals)) (with_reports inc (take 7 incs)) ov
  /\ check_rule_3_earnings_stability (with_reports inc incs)
     = check_rule_3_earnings_stability (with_reports inc (take 10 incs))
  /\ check_rule_5_earnings_growth (with_reports inc incs) (with_reports bs bals)
     = check_rule_5_earnings_growth
         (with_reports inc (take 10 incs)) (with_reports bs (take 10 bals))
  /\ check_rule_6_pe_ratio ov (with_reports inc incs) (with_reports bs bals)
     = check_rule_6_pe_ratio ov
         (with_reports inc (take 3 incs)) (with_reports bs (take 3 bals)).
Proof.
  split; [|split; [|split]].
  - unfold check_rule_2_financial_condition.
    rewrite window_interest_coverage.
    destruct bals as [|latest rest]; reflexivity.
  - unfold check_rule_3_earnings_stability, Config.MIN_EARNINGS_YEARS.
    destruct incs as [|r l]; [reflexivity|].
    change (annualReports (with_reports inc (take 10 (r :: l))))
      with (Some (r :: take 9 l)).
    change (annualReports (with_reports inc (r :: l))) with (Some (r :: l)).
    cbv iota zeta.
    change (take 10 (r :: take 9 l)) with (r :: take 9 (take 9 l)).
    rewrite take_take, Nat.min_id. reflexivity.
  - unfold check_rule_5_earnings_growth.
    rewrite !window_first_reports.
    destruct (le_lt_dec (length incs) 10) as [Hi|Hi];
      destruct (le_lt_dec (length bals) 10) as [Hb|Hb].
    + rewrite (take_ge incs), (take_ge bals) by assumption. reflexivity.
    + rewrite (take_ge incs) by assumption.
      destruct (window_fewer_than 10 bs bals Hb) as [-> ->]. reflexivity.
    + rewrite (take_ge bals) by assumption.
      destruct (window_fewer_than 10 inc incs Hi) as [-> ->]. reflexivity.
    + destruct (window_fewer_than 10 inc incs Hi) as [-> ->].
      destruct (window_fewer_than 10 bs bals Hb) as [-> ->]. reflexivity.
  - unfold check_rule_6_pe_ratio.
    rewrite !window_first_reports.
    destruct (le_lt_dec (length incs) 3) as [Hi|Hi];
      destruct (le_lt_dec (length bals) 3) as [Hb|Hb].
    + rewrite (take_ge incs), (take_ge bals) by assumption. reflexivity.
    + rewrite (take_ge incs) by assumption.
      destruct (window_fewer_than 3 bs bals Hb) as [-> ->]. reflexivity.
    + rewrite (take_ge bals) by assumption.
      destruct (window_fewer_than 3 inc incs Hi) as [-> ->]. reflexivity.
    + destruct (window_fewer_than 3 inc incs Hi) as [-> ->].
      destruct (window_fewer_than 3 bs bals Hb) as [-> ->]. reflexivity.
Qed.

(** X17. Of the latest balance sheet Rule 2 reads the long-term debt, the
    short-term debt and the shareholder equity, and, unless the sector is
    utilities, the current assets and the current liabilities: two balance
    sheets whose latest reports agree on these fields give the same outcome,
    whatever else they hold.  For a utility the current assets and
    liabilities are never read. *)
Theorem rule_2_reads (ov inc bs : Dict) (latest latest' : gmap string scalar)
    (rest rest' : list (gmap string scalar)) :
  latest !! "longTermDebt" = latest' !! "longTermDebt" ->
  latest !! "shortTermDebt" = latest' !! "shortTermDebt" ->
  latest !! "totalShareholderEquity" = latest' !! "totalShareholderEquity" ->
  sector_lower ov = Ok "utilities"
  \/ latest !! "totalCurrentAssets" = latest' !! "totalCurrentAssets"
     /\ latest !! "totalCurrentLiabilities" = latest' !! "totalCurrentLiabilities" ->
  check_rule_2_financial_condition (with_reports bs (latest :: rest)) inc ov
  = check_rule_2_financial_condition (with_reports bs (latest' :: rest')) inc ov.
Proof.
  intros Hl Hs He Hc. unfold check_rule_2_financial_condition.
  change (annualReports (with_reports bs (latest :: rest))) with (Some (latest :: rest)).
  change (annualReports (with_reports bs (latest' :: rest'))) with (Some (latest' :: rest')).
  cbv iota.
  rewrite (get_field_ext latest latest' "longTermDebt" Hl).
  rewrite (get_field_ext latest latest' "shortTermDebt" Hs).
  rewrite (get_field_ext latest latest' "totalShareholderEquity" He).
  destruct Hc as [Hu | [Ha Hb]].
  - rewrite Hu. reflexivity.
  - rewrite (get_field_ext latest latest' "totalCurrentAssets" Ha).
    rewrite (get_field_ext latest latest' "totalCurrentLiabilities" Hb).
    reflexivity.
Qed.

End WindowProperties.

(** ** Instances on the sample data *)

Lemma fetch_is_one_attempt_witness :
  exists r self' w' params,
    @fetch Reference.runtime Overview "IBM" (init "demo" None) Samples.start_world
    = (r, self', w')
    /\ daily_calls self' = 1%Z
    /\ dispatched w' = [(last_call_time self', params)]
    /\ params !! "function" = Some "OVERVIEW"
    /\ params !! "symbol" = Some "IBM"
    /\ params !! "apikey" = Some "demo"
    /\ dom params = {["function"; "symbol"; "apikey"]}.
Proof.
  apply (@fetch_is_one_attempt Reference.runtime Overview "IBM" (init "demo" None)
           Samples.start_world).
  reflexivity.
Defined.


Lemma sleeps_are_bounded_witness :
  let r := @run_fetches Reference.runtime Samples.three_fetches
             (init "demo" None) Samples.start_world in
  exists new,
    slept r.2 = new
    /\ Forall (fun d => (0 < d)%Q /\ (d <= min_delay (init "demo" None))%Q) new
    /\ (length new + 0 <= length (dispatched r.2))%nat
    /\ (1700000000 <= clock r.2)%Q.
Proof.
  intros r.
  destruct (@sleeps_are_bounded Reference.runtime Samples.three_fetches
              (init "demo" None) r.1 Samples.start_world r.2)
    as (new & Hs & Hall & Hlen & Hclock).
  - intros n p. unfold Qle. simpl. lia.
  - unfold Qle. simpl. lia.
  - apply surjective_pairing.
  - exists new. rewrite app_nil_r in Hs.
    split; [exact Hs|]. split; [exact Hall|]. split; [exact Hlen | exact Hclock].
Defined.

Lemma evaluate_stock_needs_overview_witness :
  exists results c' w',
    @evaluate_stock Reference.runtime "IBM" false MoreSamples.last_call_client
      Samples.market_world = (Some results, c', w').
Proof.
  pose (r := @get_overview Reference.runtime "IBM" MoreSamples.last_call_client
               Samples.market_world).
  assert (E : @get_overview Reference.runtime "IBM" MoreSamples.last_call_client
                Samples.market_world = (r.1.1, r.1.2, r.2)).
  { subst r. destruct (get_overview _ _ _) as [[? ?] ?]. reflexivity. }
  destruct (@evaluate_stock_needs_overview Reference.runtime _ _ _ _ _ _ E) as [H _].
  apply H. exists Samples.overview. split; vm_compute; reflexivity.
Defined.


Lemma results_partition_witness :
  exists results client' w',
    @evaluate_stock Reference.runtime "IBM" false MoreSamples.last_call_client
      Samples.market_world = (Some results, client', w')
    /\ (total_passed results + length (rules_failed results) = 7)%nat.
Proof.
  assert (Hsome : bool_decide
            ((@evaluate_stock Reference.runtime "IBM" false MoreSamples.last_call_client
                Samples.market_world).1.1 = None) = false)
    by (vm_compute; reflexivity).
  destruct (@evaluate_stock Reference.runtime "IBM" false MoreSamples.last_call_client
              Samples.market_world) as [[[results|] client'] w'] eqn:E.
  - exists results, client', w'. split; [reflexivity|].
    apply (@results_partition Reference.runtime _ _ _ _ _ _ _ E).
  - exfalso. apply bool_decide_eq_false in Hsome. apply Hsome. reflexivity.
Defined.

Lemma last_call_evaluation_witness :
  exists results client' w',
    @evaluate_stock Reference.runtime "IBM" true MoreSamples.last_call_client
      Samples.market_world = (Some results, client', w')
    /\ passes_all results = false
    /\ length (dispatched w') = 1%nat.
Proof.
  assert (Hsome : bool_decide
            ((@evaluate_stock Reference.runtime "IBM" true MoreSamples.last_call_client
                Samples.market_world).1.1 = None) = false)
    by (vm_compute; reflexivity).
  destruct (@evaluate_stock Reference.runtime "IBM" true MoreSamples.last_call_client
              Samples.market_world) as [[[results|] client'] w'] eqn:E.
  - exists results, client', w'. split; [reflexivity|].
    apply (@last_call_evaluation Reference.runtime _ _ _ _ _ _ _) in E as H; [|simpl; lia].
    destruct H as (_ & _ & Hall & Hlen). split; [exact Hall | exact Hlen].
  - exfalso. apply bool_decide_eq_false in Hsome. apply Hsome. reflexivity.
Defined.


Lemma rule_4_needs_twenty_years_witness :
  (20 <= size (@years_with_dividends Reference.runtime
                 (default [] (data Samples.twenty_years))))%nat
  /\ (20 <= length (default [] (data Samples.twenty_years)))%nat.
Proof.
  destruct (@rule_4_needs_twenty_years Reference.runtime
              Samples.overview Samples.twenty_years
              "dividend yield 4.50%, 20 consecutive years")
    as (_ & Hsize & Hlen & _).
  - vm_compute. reflexivity.
  - split; [exact Hsize | exact Hlen].
Defined.

Lemma rule_2_reads_witness :
  @check_rule_2_financial_condition Reference.runtime
    (with_reports Samples.balance_sheet [Samples.balance_report "1000" "2023"])
    Samples.income_statement Samples.overview
  = @check_rule_2_financial_condition Reference.runtime
      (with_reports Samples.balance_sheet [Samples.balance_report "1000" "1999"])
      Samples.income_statement Samples.overview.
Proof.
  apply (@rule_2_reads Reference.runtime Samples.overview Samples.income_statement
           Samples.balance_sheet (Samples.balance_report "1000" "2023")
           (Samples.balance_report "1000" "1999") [] []).
  - vm_compute. reflexivity.
  - vm_compute. reflexivity.
  - vm_compute. reflexivity.
  - right. split; vm_compute; reflexivity.
Defined.
